(** * ReproZip command-line front end: a shallow embedding of
      [reprozip/main.py] and the properties its specification states.

    The Python module is embedded function by function: [print_db],
    [testrun], [trace], [reset], [pack] and [main].  Strings are Rocq
    strings, Python integers are [Z], [None] is an [option] or the [VNull]
    value of a database cell, and a raised exception is the [Raise] result.
    Code with effects (files, standard output, the usage report) runs in a
    state-and-exception monad over an explicit [world]. *)

From Stdlib Require Import ZArith Ascii String List Lia DecimalString Sorted.
From stdpp Require Import gmap strings list relations.

Open Scope Z_scope.

(** ** Exceptions *)

(** The exceptions the module can see.  [KeyboardInterrupt] and [SystemExit]
    derive from [BaseException] only; every other one is an [Exception]. *)
Inductive exn : Type :=
| IndexError
| TypeError
| ValueError
| AttributeError
| OperationalError
| OSError
| LaunchError
| AttachError
| StoreWriteError
| UnicodeDecodeError
| OtherException (name : string)
| KeyboardInterrupt
| SystemExit (code : Z).

Definition is_Exception (e : exn) : bool :=
  match e with
  | KeyboardInterrupt | SystemExit _ => false
  | _ => true
  end.

(** [type(e).__name__] *)
Definition type_name (e : exn) : string :=
  match e with
  | IndexError => "IndexError"
  | TypeError => "TypeError"
  | ValueError => "ValueError"
  | AttributeError => "AttributeError"
  | OperationalError => "OperationalError"
  | OSError => "OSError"
  | LaunchError => "LaunchError"
  | AttachError => "AttachError"
  | StoreWriteError => "StoreWriteError"
  | UnicodeDecodeError => "UnicodeDecodeError"
  | OtherException name => name
  | KeyboardInterrupt => "KeyboardInterrupt"
  | SystemExit _ => "SystemExit"
  end.

(** The result of an expression that may raise. *)
Inductive res (A : Type) : Type :=
| Ok (a : A)
| Raise (e : exn).
Arguments Ok {A} a.
Arguments Raise {A} e.

#[global] Instance res_ret : MRet res := fun A a => Ok a.
#[global] Instance res_bind : MBind res := fun A B k r =>
  match r with
  | Ok a => k a
  | Raise e => Raise e
  end.

Definition raised {A} (r : res A) : option exn :=
  match r with
  | Ok _ => None
  | Raise e => Some e
  end.

(** ** Python built-ins used by the module *)

Module Py.

Definition NUL : ascii := "000"%char.

(** [s.split(sep)] for a one-character separator: never an empty list. *)
Fixpoint split (sep : ascii) (s : string) : list string :=
  match s with
  | EmptyString => [EmptyString]
  | String c s' =>
      if Ascii.eqb c sep then EmptyString :: split sep s'
      else match split sep s' with
           | [] => [String c EmptyString]
           | h :: t => String c h :: t
           end
  end.

(** [sep.join(l)] *)
Fixpoint join (sep : string) (l : list string) : string :=
  match l with
  | [] => EmptyString
  | [x] => x
  | x :: l' => x +:+ sep +:+ join sep l'
  end.

(** [s.endswith(suf)]: some suffix of [s] is [suf]. *)
Fixpoint endswith (s suf : string) : bool :=
  String.eqb s suf ||
  match s with
  | EmptyString => false
  | String _ s' => endswith s' suf
  end.

Definition lower_ascii (c : ascii) : ascii :=
  let n := nat_of_ascii c in
  if (65 <=? n)%nat && (n <=? 90)%nat then ascii_of_nat (n + 32) else c.

(** [s.lower()]: the letters A to Z are lowered, every other character
    is kept. *)
Fixpoint lower (s : string) : string :=
  match s with
  | EmptyString => EmptyString
  | String c s' => String (lower_ascii c) (lower s')
  end.

(** Whether [s.decode('ascii')] succeeds on a byte string. *)
Definition is_ascii (s : string) : bool :=
  forallb (fun c => (nat_of_ascii c <? 128)%nat) (list_ascii_of_string s).

(** [os.path.basename(p)]: what follows the last ['/'] of [p]. *)
Definition basename (p : string) : string :=
  List.last (split "/"%char p) EmptyString.

Fixpoint spaces (n : nat) : string :=
  match n with
  | O => EmptyString
  | S n' => String " "%char (spaces n')
  end.

(** [str(n)] for an integer. *)
Definition str_of_Z (n : Z) : string := NilZero.string_of_int (Z.to_int n).

(** Alignment ['>'] and ['<'] with the space as fill character. *)
Definition pad_left (w : nat) (s : string) : string :=
  spaces (w - String.length s) +:+ s.
Definition pad_right (w : nat) (s : string) : string :=
  s +:+ spaces (w - String.length s).

(** ["{0: wd}".format(n)]: a space as sign of a non-negative number,
    right-aligned to width [w]. *)
Definition fmt_d_space (w : nat) (n : Z) : string :=
  pad_left w (if n <? 0 then str_of_Z n else String " "%char (str_of_Z n)).

(** ["{0: <wd}".format(n)]: fill with spaces, left-aligned to width [w],
    a sign only for negative numbers. *)
Definition fmt_d_left (w : nat) (n : Z) : string :=
  pad_right w (str_of_Z n).

(** ["{0: <ws}".format(s)] *)
Definition fmt_s_left (w : nat) (s : string) : string :=
  pad_right w s.

(** ["%d" % n] *)
Definition percent_d (n : Z) : string := str_of_Z n.

(** [l[-1]] *)
Definition last_item {A} (l : list A) : res A :=
  match List.last (map Some l) None with
  | Some x => Ok x
  | None => Raise IndexError
  end.

(** [l[0]] *)
Definition first_item {A} (l : list A) : res A :=
  match l with
  | x :: _ => Ok x
  | [] => Raise IndexError
  end.

(** [l[:-1]] *)
Definition drop_last {A} (l : list A) : list A := List.removelast l.

(** [l[1:]] *)
Definition drop_first {A} (l : list A) : list A := List.tl l.

End Py.

(** ** The provenance store as the dumper reads it *)

(** A cell of an sqlite3 row. *)
Inductive value : Type :=
| VNull
| VInt (n : Z)
| VText (s : string).

Record table : Type := Table {
  columns : list string;
  rows : list (list value)
}.

(** A database file: its tables, each under its name in lower case.  SQLite
    resolves the names of tables and columns without regard to the case of
    the letters A to Z. *)
Abbreviation store := (gmap string table).

Definition same_name (a b : string) : bool :=
  String.eqb (Py.lower a) (Py.lower b).

Fixpoint index_of (c : string) (cols : list string) : option nat :=
  match cols with
  | [] => None
  | c' :: cols' =>
      if same_name c c' then Some O else S <$> index_of c cols'
  end.

(** [cur.execute("SELECT cols FROM tbl;")]: sqlite3 raises
    [OperationalError] for a table or a column that does not exist;
    otherwise every row of the table is projected on [cols], in order. *)
Definition select (cols : list string) (tbl : string) (db : store)
  : res (list (list value)) :=
  match db !! Py.lower tbl with
  | None => Raise OperationalError
  | Some t =>
      match mapM (fun c => index_of c (columns t)) cols with
      | None => Raise OperationalError
      | Some idxs =>
          Ok (map (fun row => map (fun i => nth i row VNull) idxs) (rows t))
      end
  end.

(** ** The world the commands act on *)

Inductive log_record : Type :=
| LogStartingTracer (binary : string) (argv : list string)
| LogChangingOutput (name : string).

Record world : Type := World {
  fs : gmap string store;         (* the files, each read as a database *)
  out : list string;              (* what [print] wrote, oldest first *)
  log : list log_record;          (* what [logging] received *)
  usage : list (string * string)  (* the usage report's fields *)
}.

(** Commands: a state and exception monad over [world]. *)
Definition M (A : Type) : Type := world -> res A * world.

#[global] Instance M_ret : MRet M := fun A a w => (Ok a, w).
#[global] Instance M_bind : MBind M := fun A B k m w =>
  match m w with
  | (Ok a, w') => k a w'
  | (Raise e, w') => (Raise e, w')
  end.

Definition lift {A} (r : res A) : M A := fun w => (r, w).

Definition raise {A} (e : exn) : M A := lift (Raise e).

(** [try: body finally: fin] *)
Definition try_finally {A} (body : M A) (fin : M unit) : M A := fun w =>
  let (r, w') := body w in
  match fin w' with
  | (Ok _, w'') => (r, w'')
  | (Raise e, w'') => (Raise e, w'')
  end.

(** [try: body except Exception as e: handler(e) else: orelse] *)
Definition try_except_else {A} (body : M A) (handler : exn -> M unit)
    (orelse : M unit) : M unit := fun w =>
  match body w with
  | (Ok _, w') => orelse w'
  | (Raise e, w') =>
      if is_Exception e then handler e w' else (Raise e, w')
  end.

(** [for x in l: body(x)] *)
Fixpoint for_each {A} (l : list A) (body : A -> M unit) : M unit :=
  match l with
  | [] => mret tt
  | x :: l' => _ ← body x; for_each l' body
  end.

Definition print (s : string) : M unit := fun w =>
  (Ok tt, World (fs w) (out w ++ [s]) (log w) (usage w)).

Definition logging (r : log_record) : M unit := fun w =>
  (Ok tt, World (fs w) (out w) (log w ++ [r]) (usage w)).

(** [record_usage_report(command=c)] and [submit_usage_report(result=r)]. *)
Definition record_usage_report (c : string) : M unit := fun w =>
  (Ok tt, World (fs w) (out w) (log w) (usage w ++ [("command", c)%string])).
Definition submit_usage_report (r : string) : M unit := fun w =>
  (Ok tt, World (fs w) (out w) (log w) (usage w ++ [("result", r)%string])).

(** [sqlite3.connect(path)]: a file that does not exist is created, as an
    empty database. *)
Definition connect (path : string) : M store := fun w =>
  match fs w !! path with
  | Some db => (Ok db, w)
  | None => (Ok ∅, World (<[path := ∅]> (fs w)) (out w) (log w) (usage w))
  end.

(** [Path.remove()]: [os.remove], which raises for a missing file. *)
Definition remove (path : string) : M unit := fun w =>
  match fs w !! path with
  | Some _ => (Ok tt, World (delete path (fs w)) (out w) (log w) (usage w))
  | None => (Raise OSError, w)
  end.

(** What lies outside [main.py]: the C tracer, the other modules of the
    package, [rpaths] and the interpreter.

    Modelled from the spec: [tracer_trace] is [reprozip.tracer.trace.trace],
    the launch interface that takes the program path, the argument vector
    and the boolean to append to an existing session; its source is not in
    [main.py], and by section 6 of the specification it returns the root
    process's final exit code. *)
Record externals : Type := Externals {
  PY3 : bool;
  old_python : bool;             (* [sys.version_info < (2, 7, 3)] *)
  repr : string -> string;       (* [repr] of a string *)
  normpath : string -> string;   (* the normalisation [rpaths.Path] applies *)
  tempname : world -> string;    (* the name [Path.tempfile] picks *)
  execute : string -> list string -> string -> Z -> M Z;
  tracer_trace : string -> list string -> string -> bool -> Z -> M Z;
  write_configuration : string -> bool -> bool -> M unit;
  pack_pack : string -> string -> bool -> M unit
}.

(** [rpaths.Path]: a normalised path string. *)
Record Path : Type := MkPath { path : string }.

Definition Path_of (E : externals) (s : string) : Path :=
  MkPath (normpath E s).

(** [str(p)] *)
Definition str_of_Path (p : Path) : string := path p.

(** [Path.unicodename]: the final component. *)
Definition unicodename (p : Path) : string := Py.basename (path p).

(** [Path.tempfile(prefix, suffix)]: creates an empty file. *)
Definition tempfile (E : externals) : M Path := fun w =>
  let name := tempname E w in
  (Ok (MkPath name), World (<[name := ∅]> (fs w)) (out w) (log w) (usage w)).

(** ** [print_db]: the database dumper *)

Definition nl : string := String "010"%char EmptyString.

(** ["{0: wd}".format(v)], ["{0: <wd}".format(v)] and ["{0: <ws}".format(v)]
    on a cell: [None] and a value of the wrong type raise. *)
Definition fmt_d_space_v (w : nat) (v : value) : res string :=
  match v with
  | VInt n => Ok (Py.fmt_d_space w n)
  | VNull => Raise TypeError
  | VText _ => Raise ValueError
  end.

Definition fmt_d_left_v (w : nat) (v : value) : res string :=
  match v with
  | VInt n => Ok (Py.fmt_d_left w n)
  | VNull => Raise TypeError
  | VText _ => Raise ValueError
  end.

Definition fmt_s_left_v (w : nat) (v : value) : res string :=
  match v with
  | VText s => Ok (Py.fmt_s_left w s)
  | VNull => Raise TypeError
  | VInt _ => Raise ValueError
  end.

(** [v & mask] *)
Definition and_v (v : value) (mask : Z) : res Z :=
  match v with
  | VInt n => Ok (Z.land n mask)
  | _ => Raise TypeError
  end.

(** The exit column of a [processes] row (lines 60 to 63). *)
Definition f_exit (r_exit : value) : res string :=
  flag ← and_v r_exit 0x0100;
  if negb (flag =? 0) then
    s ← fmt_d_left_v 2 r_exit; Ok (" sig" +:+ s +:+ " ")
  else
    s ← fmt_d_left_v 2 r_exit; Ok ("    " +:+ s +:+ " ").

(** The parent column (lines 56 to 59). *)
Definition f_parent (r_parent : value) : res string :=
  match r_parent with
  | VNull => Ok "        "%string
  | _ => s ← fmt_d_space_v 7 r_parent; Ok (s +:+ " ")
  end.

Definition process_line (row : list value) : res string :=
  match row with
  | [r_id; r_parent; r_timestamp; r_exit] =>
      s_id ← fmt_d_space_v 5 r_id;
      let f_id := s_id +:+ " " in
      f_par ← f_parent r_parent;
      f_ex ← f_exit r_exit;
      s_ts ← fmt_d_space_v 17 r_timestamp;
      let f_timestamp := s_ts +:+ " " in
      Ok (Py.join "|" [""; f_id; f_par; f_ex; f_timestamp; ""]%string)
  | _ => Raise ValueError
  end.

(** Lines 86 to 88: the argument vector of an [executed_files] row. *)
Definition split_argv (r_argv : string) : res (list string) :=
  let argv := Py.split Py.NUL r_argv in
  final ← Py.last_item argv;
  if String.eqb final "" then Ok (Py.drop_last argv) else Ok argv.

(** Lines 86 to 91: the command line shown for a row. *)
Definition cmdline_of (E : externals) (r_name r_argv : value) : res string :=
  match r_argv with
  | VText a =>
      argv ← split_argv a;
      let cmdline := Py.join " " (map (repr E) argv) in
      a0 ← Py.first_item argv;
      match r_name with
      | VText name =>
          if negb (String.eqb a0 (Py.basename name))
          then Ok ("(" +:+ name +:+ ") " +:+ cmdline)
          else Ok cmdline
      | _ => Raise TypeError
      end
  | _ => Raise AttributeError
  end.

Definition executed_line (E : externals) (row : list value) : res string :=
  match row with
  | [r_id; r_name; r_timestamp; r_process; r_argv] =>
      s_id ← fmt_d_space_v 7 r_id;
      let f_id := s_id +:+ " " in
      s_ts ← fmt_d_space_v 17 r_timestamp;
      let f_timestamp := s_ts +:+ " " in
      s_proc ← fmt_d_space_v 8 r_process;
      let f_proc := s_proc +:+ " " in
      cmdline ← cmdline_of E r_name r_argv;
      let f_cmdline := " " +:+ Py.fmt_s_left 37 cmdline +:+ " " in
      Ok (Py.join "|" [""; f_id; f_timestamp; f_proc; f_cmdline; ""]%string)
  | _ => Raise ValueError
  end.

Definition opened_line (row : list value) : res string :=
  match row with
  | [r_id; r_name; r_timestamp; r_mode; r_process] =>
      s_id ← fmt_d_space_v 7 r_id;
      let f_id := s_id +:+ " " in
      s_ts ← fmt_d_space_v 17 r_timestamp;
      let f_timestamp := s_ts +:+ " " in
      s_proc ← fmt_d_space_v 8 r_process;
      let f_proc := s_proc +:+ " " in
      s_mode ← fmt_d_space_v 5 r_mode;
      let f_mode := s_mode +:+ " " in
      s_name ← fmt_s_left_v 30 r_name;
      let f_name := " " +:+ s_name +:+ " " in
      Ok (Py.join "|" [""; f_id; f_timestamp; f_proc; f_mode; f_name; ""]%string)
  | _ => Raise ValueError
  end.

(** The three queries, as written in the source. *)
Definition processes_columns : list string :=
  ["id"; "parent"; "timestamp"; "exitcode"]%string.
Definition executed_files_columns : list string :=
  ["id"; "name"; "timestamp"; "process"; "argv"]%string.
Definition opened_files_columns : list string :=
  ["id"; "name"; "timestamp"; "mode"; "process"]%string.

Definition processes_header : string :=
  "+------+--------+-------+------------------+".
Definition executed_header : string :=
  "+--------+------------------+---------+------------------------" +:+
  "---------------+".
Definition opened_header : string :=
  "+--------+------------------+---------+------+-----------------" +:+
  "---------------+".

(** One of the three blocks of [print_db]: run the query, print the title
    and the column names between two rules, then a line and a rule per row. *)
Definition dump_table (conn : store) (tbl : string) (cols : list string)
    (title header names : string) (line : list value -> res string)
  : M unit :=
  processes ← lift (select cols tbl conn);
  _ ← print title;
  _ ← print header;
  _ ← print names;
  _ ← print header;
  for_each processes (fun row =>
    l ← lift (line row);
    _ ← print l;
    print header).

Definition print_db (E : externals) (database : Path) : M unit :=
  conn ← connect (if PY3 E then str_of_Path database else path database);
  _ ← dump_table conn "processes" processes_columns
        (nl +:+ "Processes:") processes_header
        "|  id  | parent |  exit |     timestamp    |"
        process_line;
  _ ← dump_table conn "executed_files" executed_files_columns
        (nl +:+ "Executed files:") executed_header
        ("|   id   |     timestamp    | process | name and argv              "
         +:+ "           |")
        (executed_line E);
  dump_table conn "opened_files" opened_files_columns
        (nl +:+ "Files:") opened_header
        ("|   id   |     timestamp    | process | mode | name                "
         +:+ "           |")
        opened_line.

(** ** What argparse hands to the subcommands *)

Inductive command : Type :=
| Trace (arg0 : option string) (append : bool) (cmdline : list string)
| Testrun (arg0 : option string) (cmdline : list string)
| Reset
| Pack (target : string).

Record args : Type := Args {
  verbosity : Z;
  dir : string;
  identify_packages : bool;
  selected : command
}.

Definition selected_command (c : command) : string :=
  match c with
  | Trace _ _ _ => "trace"
  | Testrun _ _ => "testrun"
  | Reset => "reset"
  | Pack _ => "pack"
  end.

(** ** [testrun] and [trace] *)

(** Lines 134 to 137 and 160 to 163: the argument vector handed to the
    tracer. *)
Definition build_argv (arg0 : option string) (cmdline : list string)
  : list string :=
  match arg0 with
  | Some a => [a] ++ Py.drop_first cmdline
  | None => cmdline
  end.

(** What the tracer is started with: the binary is [args.cmdline[0]]. *)
Definition launch_arguments (arg0 : option string) (cmdline : list string)
  : res (string * list string) :=
  let argv := build_argv arg0 cmdline in
  binary ← Py.first_item cmdline;
  Ok (binary, argv).

(** Lines 145 to 150: the warning printed for the tracer's return value. *)
Inductive exit_warning : Type :=
| TerminatedBySignal (n : Z)
| NonZeroCode (n : Z).

Definition warning_of (c : Z) : option exit_warning :=
  if negb (c =? 0) then
    if negb (Z.land c 0x0100 =? 0) then Some (TerminatedBySignal (Z.land c 0xFF))
    else Some (NonZeroCode c)
  else None.

Definition warning_text (w : exit_warning) : string :=
  match w with
  | TerminatedBySignal n =>
      nl +:+ "Warning: program appears to have been terminated by " +:+
      "signal " +:+ Py.percent_d n
  | NonZeroCode n =>
      nl +:+ "Warning: program exited with non-zero code " +:+ Py.percent_d n
  end.

(** The number a warning shows. *)
Definition warning_value (w : exit_warning) : Z :=
  match w with
  | TerminatedBySignal n => n
  | NonZeroCode n => n
  end.

Definition print_warning (c : Z) : M unit :=
  match warning_of c with
  | Some w => print (warning_text w)
  | None => mret tt
  end.

(** The rule printed between the program's output and the dump. *)
Definition banner : string :=
  nl +:+ nl +:+
  "-----------------------------------------------------------" +:+
  "--------------------".

Definition testrun_body (E : externals) (a : args) (arg0 : option string)
    (cmdline : list string) (database : Path) : M unit :=
  let argv := build_argv arg0 cmdline in
  binary ← lift (Py.first_item cmdline);
  _ ← logging (LogStartingTracer binary argv);
  c ← execute E binary argv (path database) (verbosity a);
  _ ← print banner;
  _ ← print_db E database;
  print_warning c.

Definition testrun (E : externals) (a : args) (arg0 : option string)
    (cmdline : list string) : M unit :=
  database ← tempfile E;
  try_finally (testrun_body E a arg0 cmdline database)
              (remove (path database)).

Definition trace (E : externals) (a : args) (arg0 : option string)
    (append : bool) (cmdline : list string) : M unit :=
  let argv := build_argv arg0 cmdline in
  binary ← lift (Py.first_item cmdline);
  _ ← tracer_trace E binary argv (path (Path_of E (dir a))) append
        (verbosity a);
  write_configuration E (path (Path_of E (dir a))) (identify_packages a) false.

(** ** [reset] and [pack] *)

Definition reset (E : externals) (a : args) : M unit :=
  write_configuration E (path (Path_of E (dir a))) (identify_packages a) true.

(** [target.path + '.rpz'] (line 192).  On POSIX [Path.path] is a byte
    string, which is why [print_db] hands [str(database)] to sqlite3 on
    Python 3, and the literal is a unicode string under [unicode_literals].
    Python 3 refuses to add the two and raises [TypeError]; Python 2 decodes
    the bytes as ASCII first, which raises [UnicodeDecodeError] for any
    other byte. *)
Definition add_rpz (E : externals) (p : string) : res string :=
  if PY3 E then Raise TypeError
  else if Py.is_ascii p then Ok (p +:+ ".rpz")
  else Raise UnicodeDecodeError.

(** Lines 190 to 192: the file the bundle is written to. *)
Definition pack_target (E : externals) (target : string) : res Path :=
  let t := Path_of E target in
  if negb (Py.endswith (Py.lower (unicodename t)) ".rpz")
  then p ← add_rpz E (path t); Ok (Path_of E p)
  else Ok t.

Definition pack (E : externals) (a : args) (target : string) : M unit :=
  let t := Path_of E target in
  t' ← (if negb (Py.endswith (Py.lower (unicodename t)) ".rpz")
        then
          p ← lift (add_rpz E (path t));
          let t2 := Path_of E p in
          _ ← logging (LogChangingOutput (unicodename t2)); mret t2
        else mret t);
  pack_pack E (path t') (path (Path_of E (dir a))) (identify_packages a).

(** ** [main] *)

(** [args.func(args)] *)
Definition func (E : externals) (a : args) : M unit :=
  match selected a with
  | Trace arg0 append cmdline => trace E a arg0 append cmdline
  | Testrun arg0 cmdline => testrun E a arg0 cmdline
  | Reset => reset E a
  | Pack target => pack E a target
  end.

(** ['cmdline' in args and not args.cmdline] *)
Definition missing_cmdline (c : command) : bool :=
  match c with
  | Trace _ _ [] | Testrun _ [] => true
  | _ => false
  end.

(** [main], from the parsed arguments on; [run] stands for [args.func].
    [parser.error] exits with status 2 and the version test with status 1. *)
Definition main_with (E : externals) (run : args -> M unit) (a : args)
  : M unit :=
  if old_python E then raise (SystemExit 1)
  else
    if missing_cmdline (selected a) then raise (SystemExit 2)
    else
      _ ← record_usage_report (selected_command (selected a));
      _ ← try_except_else (run a)
            (fun e => submit_usage_report (type_name e))
            (submit_usage_report "success");
      raise (SystemExit 0).

Definition main (E : externals) (a : args) : M unit :=
  main_with E (func E) a.

(** The status the interpreter ends with. *)
Definition exit_status {A} (r : res A) : Z :=
  match r with
  | Ok _ => 0
  | Raise (SystemExit c) => c
  | Raise _ => 1
  end.

(** ** The tracer's side of the store

    The tracer itself (the [_pytracer] extension and [reprozip.tracer]) is
    outside [main.py]; what the dumper relies on is taken from the
    specification. *)

Inductive exit_kind : Type :=
| Exited (status : Z)
| Signaled (signal : Z).

(** Modelled from the spec: the tracer's exit-code encoding, which is not in
    [main.py].  A value in [0,255] is a normal exit status; a value with bit
    [0x0100] set, low byte = signal number, means terminated by that
    signal. *)
Definition encode_exit (e : exit_kind) : Z :=
  match e with
  | Exited status => status
  | Signaled signal => Z.lor 0x0100 signal
  end.

(** The statuses and signal numbers the encoding is specified for. *)
Definition valid_exit (e : exit_kind) : Prop :=
  match e with
  | Exited status => 0 <= status <= 255
  | Signaled signal => 0 <= signal <= 255
  end.

(** The reading of an exit code, as [testrun] does it at lines 146 to 150. *)
Definition decode_exit (c : Z) : exit_kind :=
  if negb (Z.land c 0x0100 =? 0) then Signaled (Z.land c 0xFF)
  else Exited c.

(** Modelled from the spec: the writer of the [argv] column, which is not in
    [main.py].  The argument strings are joined with NUL, with an optional
    trailing separator. *)
Definition serialize_argv (trailing : bool) (argv : list string) : string :=
  Py.join (String Py.NUL EmptyString) argv +:+
  (if trailing then String Py.NUL EmptyString else EmptyString).

Definition nul_free (s : string) : Prop :=
  ~ In Py.NUL (list_ascii_of_string s).

(** Modelled from the spec: the schema of the provenance store, which the
    tracer creates outside [main.py]. *)
Definition schema : list (string * list string) :=
  [("processes", ["id"; "parent"; "timestamp"; "exitcode"]);
   ("executed_files", ["id"; "name"; "timestamp"; "process"; "argv"]);
   ("opened_files", ["id"; "name"; "timestamp"; "mode"; "process"])]%string.

(** A database exposes the schema: each table is there with exactly its
    columns, and each of its rows has a cell per column. *)
Definition exposes (db : store) (entry : string * list string) : Prop :=
  exists t, db !! entry.1 = Some t /\ columns t = entry.2 /\
    Forall (fun row => length row = length (columns t)) (rows t).

Definition conforms (db : store) : Prop := Forall (exposes db) schema.

Module Tracer.

(** Modelled from the spec: a row of the [processes] table (section 3 of
    the specification); the tracer that writes it is not in [main.py]. *)
Record process : Type := Process {
  id : nat;
  parent : option nat;
  timestamp : nat;
  exitcode : option Z
}.

(** Modelled from the spec: the store assigns ids itself, in strictly
    increasing order, continuing from the prior maximum when a session is
    appended to. *)
Definition next_id (tbl : list process) : nat :=
  fold_right (fun p n => Nat.max (S (id p)) n) O tbl.

(** Modelled from the spec: [record_process], an append-only insert. *)
Definition record_process (par : option nat) (ts : nat)
    (tbl : list process) : nat * list process :=
  let i := next_id tbl in (i, tbl ++ [Process i par ts None]).

(** Modelled from the spec: [update_exit], the one mutation of a row. *)
Definition update_exit (i : nat) (code : Z) (tbl : list process)
  : list process :=
  map (fun p => if Nat.eqb (id p) i
                then Process (id p) (parent p) (timestamp p) (Some code)
                else p) tbl.

(** Modelled from the spec: the tree-shape events the supervisor handles
    (section 4.1); every other event leaves the table alone. *)
Inductive event : Type :=
| Fork (reporter : nat) (ts : nat)
| Exit (who : nat) (how : exit_kind)
| Other (who : nat).

Record supervisor : Type := Supervisor {
  table : list process;
  live : gset nat
}.

(** Modelled from the spec: [start] creates the root row, with a null
    parent, in a fresh table or after the rows of a prior session. *)
Definition start (ts : nat) (prior : list process) : supervisor :=
  let (root, tbl) := record_process None ts prior in
  Supervisor tbl {[root]}.

(** Modelled from the spec: a new child gets the reporting process as its
    parent; an exit records the encoded code and ends the process.  Events
    of processes the supervisor does not hold are not its tracees'. *)
Definition handle (s : supervisor) (e : event) : supervisor :=
  match e with
  | Fork reporter ts =>
      if decide (reporter ∈ live s) then
        let (child, tbl) := record_process (Some reporter) ts (table s) in
        Supervisor tbl ({[child]} ∪ live s)
      else s
  | Exit who how =>
      if decide (who ∈ live s) then
        Supervisor (update_exit who (encode_exit how) (table s))
                   (live s ∖ {[who]})
      else s
  | Other _ => s
  end.

(** Modelled from the spec: [run_to_completion] over the events the
    kernel delivers. *)
Definition run (ts : nat) (prior : list process) (evs : list event)
  : supervisor :=
  fold_left handle evs (start ts prior).

(** The rows a run added after those of the prior session. *)
Definition run_rows (prior : list process) (s : supervisor)
  : list process :=
  drop (length prior) (table s).

(** [q] is the parent of [p] among the rows [tbl]. *)
Definition parent_in (tbl : list process) (p q : nat) : Prop :=
  exists r, In r tbl /\ id r = p /\ parent r = Some q.

Definition roots (tbl : list process) : list process :=
  filter (fun p => parent p = None) tbl.

Definition has_id (tbl : list process) (i : nat) : Prop :=
  exists r, In r tbl /\ id r = i.

(** A row that is not a root: its parent is a row of [tbl] with a
    strictly smaller id. *)
Definition child_ok (tbl : list process) (p : process) : Prop :=
  exists q, parent p = Some q /\ (q < id p)%nat /\ has_id tbl q.

(** What every state of a run satisfies. *)
Record forest_inv (prior : list process) (s : supervisor) : Prop := {
  inv_rows : exists root rest,
    run_rows prior s = root :: rest /\ parent root = None /\
    Forall (child_ok (root :: rest)) rest;
  inv_live : forall i, i ∈ live s -> has_id (run_rows prior s) i;
  inv_sorted : StronglySorted lt (map id (run_rows prior s))
}.

(** Modelled from the spec: the table after a first run in a fresh session
    and the runs appended to it with the continue option, each given by its
    starting tick and its events. *)
Definition sessions (runs : list (nat * list event)) : list process :=
  fold_left (fun tbl r => table (run r.1 tbl r.2)) runs [].

(** What the table of every session satisfies. *)
Record table_ok (tbl : list process) : Prop := {
  ok_sorted : StronglySorted lt (map id tbl);
  ok_rows : Forall (fun p => parent p = None \/ child_ok tbl p) tbl
}.

(** What the supervisor keeps: the table in order and every live process
    in it. *)
Definition supervisor_ok (s : supervisor) : Prop :=
  table_ok (table s) /\ forall i, i ∈ live s -> has_id (table s) i.

End Tracer.

(** Modelled from the spec: the rows of the other two tables (section 3 of
    the specification); the tracer that writes them is not in [main.py].
    The argument vector is stored joined with NUL, with or without a
    trailing separator. *)
Record executed_file : Type := ExecutedFile {
  e_id : nat;
  e_name : string;
  e_timestamp : nat;
  e_process : nat;
  e_argv : list string;
  e_trailing : bool
}.

Record opened_file : Type := OpenedFile {
  o_id : nat;
  o_name : string;
  o_timestamp : nat;
  o_mode : nat;
  o_process : nat
}.

(** Modelled from the spec: what a trace session has recorded when the
    store is finalized. *)
Record session : Type := Session {
  s_processes : list Tracer.process;
  s_executed : list executed_file;
  s_opened : list opened_file
}.

Definition process_row (p : Tracer.process) : list value :=
  [VInt (Z.of_nat (Tracer.id p));
   match Tracer.parent p with
   | Some q => VInt (Z.of_nat q)
   | None => VNull
   end;
   VInt (Z.of_nat (Tracer.timestamp p));
   match Tracer.exitcode p with
   | Some c => VInt c
   | None => VNull
   end].

Definition executed_row (e : executed_file) : list value :=
  [VInt (Z.of_nat (e_id e)); VText (e_name e);
   VInt (Z.of_nat (e_timestamp e)); VInt (Z.of_nat (e_process e));
   VText (serialize_argv (e_trailing e) (e_argv e))].

Definition opened_row (o : opened_file) : list value :=
  [VInt (Z.of_nat (o_id o)); VText (o_name o);
   VInt (Z.of_nat (o_timestamp o)); VInt (Z.of_nat (o_mode o));
   VInt (Z.of_nat (o_process o))].

(** Modelled from the spec: the database a session leaves, with the three
    tables and the columns of section 6 of the specification. *)
Definition store_of (s : session) : store :=
  {[ "processes"%string :=
       Table ["id"; "parent"; "timestamp"; "exitcode"]%string
             (map process_row (s_processes s));
     "executed_files"%string :=
       Table ["id"; "name"; "timestamp"; "process"; "argv"]%string
             (map executed_row (s_executed s));
     "opened_files"%string :=
       Table ["id"; "name"; "timestamp"; "mode"; "process"]%string
             (map opened_row (s_opened s)) ]}.

(** A session all of whose processes have ended and none of whose
    executions has an empty argv field. *)
Definition session_complete (s : session) : Prop :=
  Forall (fun p => Tracer.exitcode p <> None) (s_processes s) /\
  Forall (fun e => serialize_argv (e_trailing e) (e_argv e) <> ""%string)
         (s_executed s).

(** What [pack] needs of the normalisation of [rpaths.Path]: a path whose
    final component is a proper name keeps that component. *)
Definition normpath_keeps_name (E : externals) : Prop :=
  forall p : string,
    Py.basename p <> ""%string -> Py.basename p <> "."%string ->
    Py.basename p <> ".."%string ->
    Py.basename (normpath E p) = Py.basename p.

(** ** Rows the dumper can format *)

(** The cells [print_db] can format: integers in the numeric columns, a
    null or an integer as parent, text as name, and as argv a text that is
    not empty. *)
Definition is_int (v : value) : bool :=
  match v with VInt _ => true | _ => false end.

Definition is_null (v : value) : bool :=
  match v with VNull => true | _ => false end.

Definition is_text (v : value) : bool :=
  match v with VText _ => true | _ => false end.

Definition is_filled_text (v : value) : bool :=
  match v with VText a => negb (String.eqb a "") | _ => false end.

Definition process_row_ok (row : list value) : bool :=
  match row with
  | [r_id; r_parent; r_timestamp; r_exit] =>
      is_int r_id && (is_null r_parent || is_int r_parent) &&
      is_int r_timestamp && is_int r_exit
  | _ => false
  end.

Definition executed_row_ok (row : list value) : bool :=
  match row with
  | [r_id; r_name; r_timestamp; r_process; r_argv] =>
      is_int r_id && is_text r_name && is_int r_timestamp &&
      is_int r_process && is_filled_text r_argv
  | _ => false
  end.

Definition opened_row_ok (row : list value) : bool :=
  match row with
  | [r_id; r_name; r_timestamp; r_mode; r_process] =>
      is_int r_id && is_text r_name && is_int r_timestamp &&
      is_int r_mode && is_int r_process
  | _ => false
  end.

(** The world after [lines] were printed. *)
Definition printed (w : world) (lines : list string) : world :=
  World (fs w) (out w ++ lines) (log w) (usage w).

(** The two lines [print_db] prints for a row. *)
Definition row_lines (header : string) (ls : list string) : list string :=
  flat_map (fun l => [l; header]) ls.

(** What [print_db] prints for each table, given the lines of its rows. *)
Definition processes_block (ls : list string) : list string :=
  [nl +:+ "Processes:"; processes_header;
   "|  id  | parent |  exit |     timestamp    |"; processes_header]%string
  ++ row_lines processes_header ls.

Definition executed_block (ls : list string) : list string :=
  [nl +:+ "Executed files:"; executed_header;
   "|   id   |     timestamp    | process | name and argv              "
   +:+ "           |"; executed_header]%string
  ++ row_lines executed_header ls.

Definition opened_block (ls : list string) : list string :=
  [nl +:+ "Files:"; opened_header;
   "|   id   |     timestamp    | process | mode | name                "
   +:+ "           |"; opened_header]%string
  ++ row_lines opened_header ls.

(** The database [print_db] reads. *)
Definition database_of (w : world) (database : Path) : store :=
  default ∅ (fs w !! path database).

(** ** Sample collaborators, for concrete runs *)

(** A store with one row in each table. *)
Definition sample_store : store :=
  {[ "processes"%string :=
       Table ["id"; "parent"; "timestamp"; "exitcode"]%string
             [[VInt 1; VNull; VInt 100; VInt 0]];
     "executed_files"%string :=
       Table ["id"; "name"; "timestamp"; "process"; "argv"]%string
             [[VInt 1; VText "/bin/echo"; VInt 101; VInt 1;
               VText ("echo" +:+ String Py.NUL "hi" +:+ String Py.NUL "")]];
     "opened_files"%string :=
       Table ["id"; "name"; "timestamp"; "mode"; "process"]%string
             [[VInt 1; VText "/etc/passwd"; VInt 102; VInt 1; VInt 1]] ]}.

(** A tracer whose traced program ends with the encoded code [c] and that
    leaves [sample_store] in the database; paths are kept as they are. *)
Definition sample_externals (c : Z) : externals :=
  {| PY3 := true;
     old_python := false;
     repr := fun s => "'" +:+ s +:+ "'";
     normpath := fun s => s;
     tempname := fun _ => "/tmp/reprozip_0.sqlite3"%string;
     execute := fun _ _ database _ w =>
       (Ok c, World (<[database := sample_store]> (fs w)) (out w) (log w)
                    (usage w));
     tracer_trace := fun _ _ _ _ _ => mret c;
     write_configuration := fun _ _ _ => mret tt;
     pack_pack := fun _ _ _ => mret tt |}.

(** A tracer whose traced program ends with the code [c] and that leaves
    the store [db] in the database. *)
Definition externals_leaving (db : store) (c : Z) : externals :=
  {| PY3 := true;
     old_python := false;
     repr := fun s => "'" +:+ s +:+ "'";
     normpath := fun s => s;
     tempname := fun _ => "/tmp/reprozip_0.sqlite3"%string;
     execute := fun _ _ database _ w =>
       (Ok c, World (<[database := db]> (fs w)) (out w) (log w) (usage w));
     tracer_trace := fun _ _ _ _ _ => mret c;
     write_configuration := fun _ _ _ => mret tt;
     pack_pack := fun _ _ _ => mret tt |}.

(** A tracer that cannot start the program. *)
Definition failing_externals : externals :=
  {| PY3 := true;
     old_python := false;
     repr := fun s => "'" +:+ s +:+ "'";
     normpath := fun s => s;
     tempname := fun _ => "/tmp/reprozip_0.sqlite3"%string;
     execute := fun _ _ _ _ => raise LaunchError;
     tracer_trace := fun _ _ _ _ _ => raise LaunchError;
     write_configuration := fun _ _ _ => mret tt;
     pack_pack := fun _ _ _ => mret tt |}.

(** A tracer interrupted from the keyboard. *)
Definition interrupted_externals : externals :=
  {| PY3 := true;
     old_python := false;
     repr := fun s => "'" +:+ s +:+ "'";
     normpath := fun s => s;
     tempname := fun _ => "/tmp/reprozip_0.sqlite3"%string;
     execute := fun _ _ _ _ => raise KeyboardInterrupt;
     tracer_trace := fun _ _ _ _ _ => raise KeyboardInterrupt;
     write_configuration := fun _ _ _ => mret tt;
     pack_pack := fun _ _ _ => mret tt |}.

(** An interpreter of the given major version and a packer that prints the
    target it is handed. *)
Definition packing_externals (py3 : bool) : externals :=
  {| PY3 := py3;
     old_python := false;
     repr := fun s => "'" +:+ s +:+ "'";
     normpath := fun s => s;
     tempname := fun _ => "/tmp/reprozip_0.sqlite3"%string;
     execute := fun _ _ _ _ => mret 0;
     tracer_trace := fun _ _ _ _ _ => mret 0;
     write_configuration := fun _ _ _ => mret tt;
     pack_pack := fun target _ _ => print ("packing " +:+ target) |}.

Definition empty_world : world := World ∅ [] [] [].

Definition sample_args (c : command) : args :=
  {| verbosity := 1; dir := ".reprozip"; identify_packages := true;
     selected := c |}.

(** A store in which the second process has not ended: its exit code is
    null. *)
Definition unfinished_store : store :=
  <[ "processes"%string :=
       Table ["id"; "parent"; "timestamp"; "exitcode"]%string
             [[VInt 1; VNull; VInt 100; VInt 0];
              [VInt 2; VInt 1; VInt 105; VNull];
              [VInt 3; VInt 1; VInt 106; VInt 0]] ]> sample_store.

(** A store in which the second execution has an empty argv field. *)
Definition empty_argv_store : store :=
  <[ "executed_files"%string :=
       Table ["id"; "name"; "timestamp"; "process"; "argv"]%string
             [[VInt 1; VText "/bin/echo"; VInt 101; VInt 1;
               VText ("echo" +:+ String Py.NUL "hi" +:+ String Py.NUL "")];
              [VInt 2; VText "/bin/true"; VInt 103; VInt 1; VText ""];
              [VInt 3; VText "/bin/true"; VInt 104; VInt 1;
               VText ("true" +:+ String Py.NUL "")]] ]> sample_store.

(** A session of one process that ran [echo hi] and opened one file. *)
Definition sample_session : session :=
  Session [Tracer.Process 1 None 100 (Some 0)]
          [ExecutedFile 1 "/bin/echo" 101 1 ["echo"; "hi"]%string true]
          [OpenedFile 1 "/etc/passwd" 102 1 1].

Definition sample_database : Path := MkPath "/tmp/trace.sqlite3".

(** A world whose only file is a database holding [db]. *)
Definition world_with (db : store) : world :=
  World {[ "/tmp/trace.sqlite3"%string := db ]} [] [] [].

(** * Properties *)

(** ** The model at work *)

Example split_two :
  Py.split Py.NUL ("a" +:+ String Py.NUL "b") = ["a"; "b"]%string.
Proof. reflexivity. Qed.

Example split_of_empty : Py.split Py.NUL "" = [""]%string.
Proof. reflexivity. Qed.

Example basename_of_file : Py.basename "/usr/bin/echo" = "echo"%string.
Proof. reflexivity. Qed.

Example basename_of_directory : Py.basename "/usr/bin/" = ""%string.
Proof. reflexivity. Qed.

Example fmt_d_space_3 : Py.fmt_d_space 5 3 = "    3"%string.
Proof. reflexivity. Qed.

Example fmt_d_space_minus_3 : Py.fmt_d_space 5 (-3) = "   -3"%string.
Proof. reflexivity. Qed.

Example fmt_d_left_0 : Py.fmt_d_left 2 0 = "0 "%string.
Proof. reflexivity. Qed.

Example process_line_of_root :
  process_line [VInt 1; VNull; VInt 100; VInt 0]
  = Ok "|    1 |        |    0  |              100 |"%string.
Proof. reflexivity. Qed.

Example process_line_unfinished :
  process_line [VInt 2; VInt 1; VInt 100; VNull] = Raise TypeError.
Proof. reflexivity. Qed.

Example executed_line_of_echo :
  executed_line (sample_externals 0)
    [VInt 1; VText "/bin/echo"; VInt 101; VInt 1;
     VText ("echo" +:+ String Py.NUL "hi" +:+ String Py.NUL "")]
  = Ok ("|      1 |              101 |       1 | 'echo' 'hi'" +:+
        "                           |").
Proof. reflexivity. Qed.

Example testrun_of_echo :
  testrun (sample_externals 0)
    (sample_args (Testrun None ["echo"; "hi"]%string))
    None ["echo"; "hi"]%string empty_world
  = (Ok tt,
     World ∅
       [banner;
        nl +:+ "Processes:"; processes_header;
        "|  id  | parent |  exit |     timestamp    |"; processes_header;
        "|    1 |        |    0  |              100 |"; processes_header;
        nl +:+ "Executed files:"; executed_header;
        "|   id   |     timestamp    | process | name and argv              "
        +:+ "           |"; executed_header;
        "|      1 |              101 |       1 | 'echo' 'hi'" +:+
        "                           |"; executed_header;
        nl +:+ "Files:"; opened_header;
        "|   id   |     timestamp    | process | mode | name                "
        +:+ "           |"; opened_header;
        "|      1 |              102 |       1 |    1 | /etc/passwd" +:+
        "                    |"; opened_header]%string
       [LogStartingTracer "echo" ["echo"; "hi"]%string] []).
Proof. vm_compute. reflexivity. Qed.

(** Scenarios A, C and D of the specification on the modelled tracer. *)
Example scenario_A :
  Tracer.table (Tracer.run 7 [] [Tracer.Exit 0 (Exited 0)])
  = [Tracer.Process 0 None 7 (Some 0)].
Proof. reflexivity. Qed.

Example scenario_C :
  Tracer.table
    (Tracer.run 7 [] [Tracer.Fork 0 8; Tracer.Fork 0 9;
                      Tracer.Exit 1 (Exited 0); Tracer.Exit 2 (Exited 1);
                      Tracer.Exit 0 (Exited 0)])
  = [Tracer.Process 0 None 7 (Some 0);
     Tracer.Process 1 (Some 0%nat) 8 (Some 0);
     Tracer.Process 2 (Some 0%nat) 9 (Some 1)].
Proof. vm_compute. reflexivity. Qed.

Example scenario_D :
  Tracer.table (Tracer.run 7 [] [Tracer.Exit 0 (Signaled 9)])
  = [Tracer.Process 0 None 7 (Some 0x0109)].
Proof. reflexivity. Qed.

(** ** Strings *)

Section StringFacts.

Lemma app_cons c s r : String c s +:+ r = String c (s +:+ r).
Proof. reflexivity. Qed.

Lemma app_empty_r s : s +:+ EmptyString = s.
Proof.
  induction s as [|c s IH]; [reflexivity|]. rewrite app_cons, IH. reflexivity.
Qed.

Lemma app_assoc_str s t u : (s +:+ t) +:+ u = s +:+ (t +:+ u).
Proof.
  induction s as [|c s IH]; [reflexivity|].
  rewrite !app_cons, IH. reflexivity.
Qed.

Lemma length_app_str s t :
  String.length (s +:+ t) = (String.length s + String.length t)%nat.
Proof.
  induction s as [|c s IH]; [reflexivity|].
  rewrite app_cons. simpl. rewrite IH. reflexivity.
Qed.

Lemma split_nonempty sep s : Py.split sep s <> [].
Proof.
  destruct s as [|c s]; simpl; [discriminate|].
  destruct (Ascii.eqb c sep); [discriminate|].
  destruct (Py.split sep s); discriminate.
Qed.

Lemma join_cons sep x y l :
  Py.join sep (x :: y :: l) = x +:+ sep +:+ Py.join sep (y :: l).
Proof. reflexivity. Qed.

(** Joining what [split] returned gives the string back. *)
Lemma join_split sep s :
  Py.join (String sep EmptyString) (Py.split sep s) = s.
Proof.
  induction s as [|c s IH]; simpl; [reflexivity|].
  destruct (Ascii.eqb_spec c sep) as [->|Hne].
  - pose proof (split_nonempty sep s) as Hs.
    destruct (Py.split sep s) as [|h t] eqn:E; [contradiction|].
    rewrite join_cons, IH. reflexivity.
  - pose proof (split_nonempty sep s) as Hs.
    destruct (Py.split sep s) as [|h t] eqn:E; [contradiction|].
    destruct t as [|h' t].
    + simpl in IH. subst h. reflexivity.
    + rewrite join_cons.
      change (String c h +:+ ?r) with (String c (h +:+ r)).
      rewrite <- join_cons, IH. reflexivity.
Qed.

Lemma split_single sep s h : Py.split sep s = [h] -> h = s.
Proof.
  intros E. pose proof (join_split sep s) as J. rewrite E in J. exact J.
Qed.

(** A string without the separator is one segment. *)
Lemma split_free sep s :
  ~ In sep (list_ascii_of_string s) -> Py.split sep s = [s].
Proof.
  induction s as [|c s IH]; simpl; intros H; [reflexivity|].
  destruct (Ascii.eqb_spec c sep) as [->|Hne]; [tauto|].
  rewrite IH by tauto. reflexivity.
Qed.

Lemma split_app_sep sep s r :
  ~ In sep (list_ascii_of_string s) ->
  Py.split sep (s +:+ String sep r) = s :: Py.split sep r.
Proof.
  induction s as [|c s IH]; simpl; intros H.
  - rewrite Ascii.eqb_refl. reflexivity.
  - destruct (Ascii.eqb_spec c sep) as [->|Hne]; [tauto|].
    rewrite IH by tauto. reflexivity.
Qed.

(** A separator at the end adds one empty segment. *)
Lemma split_trailing sep s :
  Py.split sep (s +:+ String sep EmptyString) = Py.split sep s ++ [EmptyString].
Proof.
  induction s as [|c s IH]; simpl.
  - rewrite Ascii.eqb_refl. reflexivity.
  - destruct (Ascii.eqb c sep).
    + rewrite IH. reflexivity.
    + rewrite IH. pose proof (split_nonempty sep s) as Hs.
      destruct (Py.split sep s); [contradiction|reflexivity].
Qed.

(** [split] undoes [join] on a non-empty list of separator-free strings. *)
Lemma split_join sep l :
  l <> [] ->
  Forall (fun s => ~ In sep (list_ascii_of_string s)) l ->
  Py.split sep (Py.join (String sep EmptyString) l) = l.
Proof.
  induction l as [|x l IH]; intros Hne Hfree; [contradiction|].
  inversion Hfree as [|? ? Hx Hl]; subst.
  destruct l as [|y l].
  - simpl. apply split_free, Hx.
  - rewrite join_cons.
    change (String sep EmptyString +:+ ?r) with (String sep r).
    rewrite split_app_sep by exact Hx.
    f_equal. apply IH; [discriminate|exact Hl].
Qed.

End StringFacts.

(** ** The argument vector of an [executed_files] row *)

Section ArgumentVector.

Lemma last_item_last {A} (l : list A) :
  Py.last_item l =
  match last l with Some x => Ok x | None => Raise IndexError end.
Proof.
  unfold Py.last_item.
  induction l as [|x l IH]; [reflexivity|].
  destruct l as [|y l]; [reflexivity|].
  exact IH.
Qed.

Lemma last_item_snoc {A} (l : list A) x : Py.last_item (l ++ [x]) = Ok x.
Proof. rewrite last_item_last, last_snoc. reflexivity. Qed.

(** Line 87 never fails: [split] returns at least one segment. *)
Lemma split_argv_total a : exists argv, split_argv a = Ok argv.
Proof.
  unfold split_argv. rewrite last_item_last.
  pose proof (split_nonempty Py.NUL a) as Hne.
  destruct (last (Py.split Py.NUL a)) as [x|] eqn:E.
  - simpl. destruct (String.eqb x ""); eauto.
  - apply last_None in E. contradiction.
Qed.

Lemma split_argv_trailing argv :
  argv <> [] -> Forall nul_free argv ->
  split_argv (serialize_argv true argv) = Ok argv.
Proof.
  intros Hne Hfree. unfold split_argv, serialize_argv.
  rewrite split_trailing, split_join by assumption.
  rewrite last_item_snoc. simpl.
  unfold Py.drop_last. rewrite removelast_last. reflexivity.
Qed.

Lemma serialize_no_trailing argv :
  serialize_argv false argv = Py.join (String Py.NUL EmptyString) argv.
Proof.
  unfold serialize_argv. apply app_empty_r.
Qed.

Lemma split_argv_plain argv :
  last argv <> Some ""%string -> Forall nul_free argv ->
  split_argv (serialize_argv false argv) = Ok argv.
Proof.
  intros Hlast Hfree. rewrite serialize_no_trailing.
  destruct argv as [|x l]; [reflexivity|].
  unfold split_argv. rewrite split_join by (discriminate || assumption).
  rewrite last_item_last.
  destruct (last (x :: l)) as [y|] eqn:E.
  - simpl. destruct (String.eqb_spec y ""); [congruence|reflexivity].
  - apply last_None in E. discriminate.
Qed.

(** The condition of the round trip is needed: without it the vector read
    back differs from the one written. *)
Lemma argv_round_trip_only_if (trailing : bool) (argv : list string) :
  Forall nul_free argv ->
  split_argv (serialize_argv trailing argv) = Ok argv ->
  if trailing then argv <> [] else last argv <> Some ""%string.
Proof.
  intros Hfree Hrt. destruct trailing.
  - intros ->. discriminate Hrt.
  - intros Hlast. rewrite serialize_no_trailing in Hrt.
    destruct argv as [|x l]; [discriminate Hlast|].
    unfold split_argv in Hrt.
    rewrite split_join in Hrt by (discriminate || assumption).
    rewrite last_item_last, Hlast in Hrt.
    change (Ok (Py.drop_last (x :: l)) = Ok (x :: l)) in Hrt.
    assert (Hrm : removelast (x :: l) = x :: l)
      by (unfold Py.drop_last in Hrt; congruence).
    assert (Hlen : x :: l <> []) by discriminate.
    destruct (exists_last Hlen) as (l' & y & Heq).
    rewrite Heq, removelast_last in Hrm.
    apply (f_equal (@length string)) in Hrm.
    rewrite length_app in Hrm. simpl in Hrm. lia.
Qed.

End ArgumentVector.

(** C2, as stated, fails: written without a trailing separator, a vector
    whose last argument is the empty string loses that argument. *)
Lemma argv_round_trip_fails_on_empty_last :
  Forall nul_free ["echo"; ""]%string /\
  split_argv (serialize_argv false ["echo"; ""]%string) = Ok ["echo"%string] /\
  split_argv (serialize_argv false ["echo"; ""]%string)
    <> Ok ["echo"; ""]%string.
Proof.
  split; [|split].
  - repeat constructor; unfold nul_free; simpl; intuition discriminate.
  - reflexivity.
  - discriminate.
Qed.

(** C2 (amended): for every sequence of NUL-free argument strings, joining
    it with NUL and splitting on NUL, discarding a final empty segment,
    recovers exactly the original sequence, provided that the sequence is not
    empty when a trailing separator is written and that its last string is
    not empty when none is written. *)
Theorem argv_round_trip (trailing : bool) (argv : list string) :
  Forall nul_free argv ->
  (if trailing then argv <> [] else last argv <> Some ""%string) ->
  split_argv (serialize_argv trailing argv) = Ok argv.
Proof.
  intros Hfree Hcond. destruct trailing.
  - apply split_argv_trailing; assumption.
  - apply split_argv_plain; assumption.
Qed.

Lemma argv_round_trip_witness :
  split_argv (serialize_argv true ["echo"; "hi"]%string) = Ok ["echo"; "hi"]%string /\
  split_argv (serialize_argv false ["echo"; "hi"]%string) = Ok ["echo"; "hi"]%string.
Proof.
  split.
  - apply (argv_round_trip true ["echo"; "hi"]%string).
    + repeat constructor; unfold nul_free; simpl; intuition discriminate.
    + discriminate.
  - apply (argv_round_trip false ["echo"; "hi"]%string).
    + repeat constructor; unfold nul_free; simpl; intuition discriminate.
    + discriminate.
Defined.

(** ** Rows the dumper cannot print *)

Section EmptyArgv.

Variable E : externals.

Lemma split_argv_empty_iff a : split_argv a = Ok [] <-> a = EmptyString.
Proof.
  split; [|intros ->; reflexivity].
  unfold split_argv. rewrite last_item_last.
  pose proof (split_nonempty Py.NUL a) as Hne.
  destruct (Py.split Py.NUL a) as [|h t] eqn:Hs; [contradiction|].
  destruct (last (h :: t)) as [x|] eqn:Hl;
    [|apply last_None in Hl; discriminate].
  change (Ok x ≫= _)
    with (if String.eqb x "" then Ok (Py.drop_last (h :: t))
          else Ok (h :: t)).
  destruct (String.eqb_spec x ""); [|discriminate].
  destruct t as [|h' t].
  - intros _. simpl in Hl. apply split_single in Hs. congruence.
  - unfold Py.drop_last. simpl. discriminate.
Qed.

Lemma cmdline_of_IndexError_iff r_name a :
  cmdline_of E r_name (VText a) = Raise IndexError <-> a = EmptyString.
Proof.
  split; [|intros ->; reflexivity].
  unfold cmdline_of.
  destruct (split_argv_total a) as [argv Hargv]. rewrite Hargv.
  destruct argv as [|a0 argv].
  - intros _. apply split_argv_empty_iff, Hargv.
  - simpl. destruct r_name; try discriminate.
    destruct (negb _); discriminate.
Qed.

End EmptyArgv.

(** C10, as stated, fails for the single separator: the vector read from it
    is [[""]], element 0 exists and the row is printed. *)
Lemma single_nul_argv_is_printed :
  split_argv (String Py.NUL EmptyString) = Ok [EmptyString] /\
  cmdline_of (sample_externals 0) (VText "/bin/true")
             (VText (String Py.NUL EmptyString))
    = Ok "(/bin/true) ''"%string /\
  raised (executed_line (sample_externals 0)
            [VInt 1; VText "/bin/true"; VInt 101; VInt 1;
             VText (String Py.NUL EmptyString)]) = None.
Proof. repeat split; reflexivity. Qed.

(** ** Exit codes *)

Section ExitCodes.

Lemma land_byte_0x100 n : 0 <= n <= 255 -> Z.land n 0x0100 = 0.
Proof.
  intros H. rewrite <- (Z.mod_small n (2 ^ 8)) by lia.
  rewrite <- Z.land_ones by lia. rewrite <- Z.land_assoc. apply Z.land_0_r.
Qed.

Lemma land_byte_0xFF n : 0 <= n <= 255 -> Z.land n 0xFF = n.
Proof.
  intros H. change 0xFF with (Z.ones 8).
  rewrite Z.land_ones by lia. apply Z.mod_small. lia.
Qed.

Lemma encode_signal_bit n :
  0 <= n <= 255 -> Z.land (encode_exit (Signaled n)) 0x0100 = 0x0100.
Proof.
  intros H. unfold encode_exit.
  rewrite Z.land_lor_distr_l, (land_byte_0x100 n) by exact H. reflexivity.
Qed.

Lemma encode_signal_low n :
  0 <= n <= 255 -> Z.land (encode_exit (Signaled n)) 0xFF = n.
Proof.
  intros H. unfold encode_exit.
  rewrite Z.land_lor_distr_l, (land_byte_0xFF n) by exact H. reflexivity.
Qed.

Lemma encode_signal_value n :
  0 <= n <= 255 -> encode_exit (Signaled n) = 256 + n.
Proof.
  intros H. unfold encode_exit. rewrite Z.lor_comm.
  change 0x0100 with (1 * 2 ^ 8).
  rewrite <- Z.add_nocarry_lor, Z.add_comm; [reflexivity|].
  change (1 * 2 ^ 8) with 0x0100. apply land_byte_0x100, H.
Qed.

(** Decoding, as [testrun] reads a code, undoes the encoding. *)
Lemma decode_encode e : valid_exit e -> decode_exit (encode_exit e) = e.
Proof.
  destruct e as [s|n]; simpl valid_exit; intros H; unfold decode_exit.
  - simpl encode_exit. rewrite land_byte_0x100 by exact H. reflexivity.
  - rewrite encode_signal_bit, encode_signal_low by exact H. reflexivity.
Qed.

Lemma encode_injective e1 e2 :
  valid_exit e1 -> valid_exit e2 -> encode_exit e1 = encode_exit e2 ->
  e1 = e2.
Proof.
  intros H1 H2 Heq.
  rewrite <- (decode_encode e1 H1), <- (decode_encode e2 H2), Heq.
  reflexivity.
Qed.

(** [testrun] shows the status of a normal exit and the number of the
    signal. *)
Lemma warning_of_encode e :
  valid_exit e ->
  warning_of (encode_exit e) =
  match e with
  | Exited status =>
      if status =? 0 then None else Some (NonZeroCode status)
  | Signaled signal => Some (TerminatedBySignal signal)
  end.
Proof.
  destruct e as [s|n]; simpl valid_exit; intros H; unfold warning_of.
  - simpl encode_exit. rewrite land_byte_0x100 by exact H.
    destruct (s =? 0); reflexivity.
  - rewrite encode_signal_bit, encode_signal_low by exact H.
    rewrite encode_signal_value by exact H.
    destruct (Z.eqb_spec (256 + n) 0); [lia|reflexivity].
Qed.

(** [print_db] shows the whole encoded value after [sig]. *)
Lemma f_exit_encode_signal n :
  0 <= n <= 255 ->
  f_exit (VInt (encode_exit (Signaled n))) =
  Ok (" sig" +:+ Py.fmt_d_left 2 (256 + n) +:+ " ").
Proof.
  intros H. unfold f_exit, and_v.
  change (Ok ?x ≫= ?k) with (k x). cbv beta.
  rewrite encode_signal_bit, encode_signal_value by exact H. reflexivity.
Qed.

End ExitCodes.

(** C1: the encoding and its reading by [testrun] agree with the claim,
    but the dumper does not: for the code of termination by signal 9,
    [0x0109], [print_db] prints [sig265], the raw encoded value, where
    [testrun] reports signal 9. *)
Theorem dumper_prints_raw_code_of_signal_9 :
  encode_exit (Exited 0) = 0 /\
  encode_exit (Signaled 9) = 0x0109 /\
  decode_exit 0x0109 = Signaled 9 /\
  warning_of 0x0109 = Some (TerminatedBySignal 9) /\
  f_exit (VInt 0x0109) = Ok " sig265 "%string.
Proof. repeat split; reflexivity. Qed.

(** ** The commands *)

Section Commands.

Variable E : externals.

Lemma bind_ok {A B} (m : M A) (k : A -> M B) w a w' :
  m w = (Ok a, w') -> (m ≫= k) w = k a w'.
Proof. intros H. unfold mbind, M_bind. rewrite H. reflexivity. Qed.

Lemma bind_raise {A B} (m : M A) (k : A -> M B) w e w' :
  m w = (Raise e, w') -> (m ≫= k) w = (Raise e, w').
Proof. intros H. unfold mbind, M_bind. rewrite H. reflexivity. Qed.

(** [remove] leaves no file of that name, whether it raises or not, and
    touches nothing but the files. *)
Lemma remove_gone p w : fs (remove p w).2 !! p = None.
Proof.
  unfold remove. destruct (fs w !! p) eqn:Hp; simpl.
  - apply lookup_delete_eq.
  - exact Hp.
Qed.

Lemma remove_out p w : out (remove p w).2 = out w.
Proof. unfold remove. destruct (fs w !! p); reflexivity. Qed.

Lemma try_finally_world {A} (body : M A) (fin : M unit) w :
  (try_finally body fin w).2 = (fin (body w).2).2.
Proof.
  unfold try_finally. destruct (body w) as [r w']. simpl.
  destruct (fin w') as [[[]|e] w'']; reflexivity.
Qed.

Lemma testrun_world a arg0 cmdline w :
  (testrun E a arg0 cmdline w).2 =
  (remove (tempname E w)
     (testrun_body E a arg0 cmdline (MkPath (tempname E w))
        (tempfile E w).2).2).2.
Proof.
  unfold testrun.
  rewrite (bind_ok (tempfile E) _ w (MkPath (tempname E w)) (tempfile E w).2)
    by reflexivity.
  apply try_finally_world.
Qed.

Lemma print_warning_out c w :
  out (print_warning c w).2 =
  out w ++ match warning_of c with
           | Some wn => [warning_text wn]
           | None => []
           end.
Proof.
  unfold print_warning. destruct (warning_of c); simpl.
  - reflexivity.
  - symmetry. apply app_nil_r.
Qed.

(** The tracer is started with the first token as binary, by both
    commands. *)
Lemma testrun_body_launch a arg0 binary rest database :
  testrun_body E a arg0 (binary :: rest) database =
  (_ ← logging (LogStartingTracer binary (build_argv arg0 (binary :: rest)));
   c ← execute E binary (build_argv arg0 (binary :: rest)) (path database)
         (verbosity a);
   _ ← print banner;
   _ ← print_db E database;
   print_warning c).
Proof. reflexivity. Qed.

Lemma trace_launch a arg0 append binary rest :
  trace E a arg0 append (binary :: rest) =
  (_ ← tracer_trace E binary (build_argv arg0 (binary :: rest))
         (path (Path_of E (dir a))) append (verbosity a);
   write_configuration E (path (Path_of E (dir a))) (identify_packages a)
     false).
Proof. reflexivity. Qed.

(** An empty command line never reaches a subcommand: [main] stops with
    the parser's error first. *)
Lemma main_rejects_empty_cmdline run a w :
  old_python E = false -> missing_cmdline (selected a) = true ->
  main_with E run a w = (Raise (SystemExit 2), w).
Proof. intros Hp Hm. unfold main_with. rewrite Hp, Hm. reflexivity. Qed.

End Commands.

(** [main] ends with status 0 whatever [Exception] the subcommand raised;
    only the usage report tells the failure from a success. *)
Lemma main_swallows_exceptions (E : externals) (run : args -> M unit)
    (a : args) (w w' : world) (e : exn) :
  old_python E = false -> missing_cmdline (selected a) = false ->
  is_Exception e = true ->
  run a (record_usage_report (selected_command (selected a)) w).2
    = (Raise e, w') ->
  main_with E run a w
    = (Raise (SystemExit 0), (submit_usage_report (type_name e) w').2).
Proof.
  intros Hp Hm He Hrun. unfold main_with. rewrite Hp, Hm.
  rewrite (bind_ok _ _ w tt
             (record_usage_report (selected_command (selected a)) w).2)
    by reflexivity.
  unfold mbind, M_bind, try_except_else. rewrite Hrun, He. reflexivity.
Qed.

Lemma main_after_success (E : externals) (run : args -> M unit)
    (a : args) (w w' : world) :
  old_python E = false -> missing_cmdline (selected a) = false ->
  run a (record_usage_report (selected_command (selected a)) w).2
    = (Ok tt, w') ->
  main_with E run a w
    = (Raise (SystemExit 0), (submit_usage_report "success" w').2).
Proof.
  intros Hp Hm Hrun. unfold main_with. rewrite Hp, Hm.
  rewrite (bind_ok _ _ w tt
             (record_usage_report (selected_command (selected a)) w).2)
    by reflexivity.
  unfold mbind, M_bind, try_except_else. rewrite Hrun. reflexivity.
Qed.

(** C3: the code does not surface a session-level error.  When the tracer
    raises [LaunchError] in the trace subcommand, [main] catches it, files
    it in the usage report and still ends with [sys.exit(0)], the status of
    a successful run. *)
Theorem main_exits_0_after_LaunchError :
  let a := sample_args (Trace None false ["echo"; "hi"]%string) in
  (func failing_externals a empty_world).1 = Raise LaunchError /\
  (main failing_externals a empty_world).1 = Raise (SystemExit 0) /\
  exit_status (main failing_externals a empty_world).1 = 0 /\
  usage (main failing_externals a empty_world).2
    = [("command", "trace"); ("result", "LaunchError")]%string.
Proof. repeat split; reflexivity. Qed.

(** C4, as stated, fails in three ways.  For a program killed by signal 9
    the tracer returns [0x0109], and the number [testrun] reports is 9, not
    the encoded exit code.  When the dump raises, here on an execution with
    an empty argv field, [testrun] prints no warning for the non-zero code 1
    the tracer returned.  And [trace], handed the code 1 by the launch
    interface, prints and logs nothing. *)
Lemma testrun_reports_signal_number_not_code :
  (encode_exit (Signaled 9) = 0x0109 /\
   warning_value <$> warning_of (encode_exit (Signaled 9)) = Some 9 /\
   warning_value <$> warning_of (encode_exit (Signaled 9))
     <> Some (encode_exit (Signaled 9))) /\
  ((testrun (externals_leaving empty_argv_store 1)
      (sample_args (Testrun None ["echo"; "hi"]%string))
      None ["echo"; "hi"]%string empty_world).1 = Raise IndexError /\
   existsb (String.eqb (warning_text (NonZeroCode 1)))
     (out (testrun (externals_leaving empty_argv_store 1)
             (sample_args (Testrun None ["echo"; "hi"]%string))
             None ["echo"; "hi"]%string empty_world).2) = false) /\
  (tracer_trace (sample_externals 1) "echo" ["echo"; "hi"]%string
     ".reprozip" false 1 empty_world = (Ok 1, empty_world) /\
   trace (sample_externals 1)
     (sample_args (Trace None false ["echo"; "hi"]%string))
     None false ["echo"; "hi"]%string empty_world = (Ok tt, empty_world)).
Proof.
  split; [repeat split; (reflexivity || discriminate)|].
  split; [split; vm_compute; reflexivity|].
  split; reflexivity.
Qed.

(** C4 (amended): the launch interface returns the root process's final
    exit code to its caller, and the test-run command reports that code to
    the user whenever the database dump completes: for every such run it
    prints no warning for status 0, a warning with the status itself for a
    non-zero normal exit, and a warning with the signal number (the low byte
    of the encoded code, not the encoded code) for a termination by signal,
    so that after a completed dump a non-zero root exit code is always
    reported rather than discarded. *)
Theorem testrun_reports_exit_code (E : externals) (a : args)
    (arg0 : option string) (binary : string) (rest : list string)
    (w w1 w2 : world) (e : exit_kind) :
  let database := MkPath (tempname E w) in
  let argv := build_argv arg0 (binary :: rest) in
  valid_exit e ->
  execute E binary argv (path database) (verbosity a)
    (logging (LogStartingTracer binary argv) (tempfile E w).2).2
    = (Ok (encode_exit e), w1) ->
  print_db E database (print banner w1).2 = (Ok tt, w2) ->
  out (testrun E a arg0 (binary :: rest) w).2 =
  out w2 ++ match e with
            | Exited status =>
                if status =? 0 then []
                else [warning_text (NonZeroCode status)]
            | Signaled signal => [warning_text (TerminatedBySignal signal)]
            end.
Proof.
  intros database argv Hvalid Hexec Hdump.
  rewrite testrun_world, remove_out, testrun_body_launch.
  fold argv. fold database.
  rewrite (bind_ok _ _ _ tt
             (logging (LogStartingTracer binary argv) (tempfile E w).2).2)
    by reflexivity.
  rewrite (bind_ok _ _ _ _ _ Hexec).
  rewrite (bind_ok _ _ w1 tt (print banner w1).2) by reflexivity.
  rewrite (bind_ok _ _ _ _ _ Hdump).
  rewrite print_warning_out, warning_of_encode by exact Hvalid.
  destruct e as [s|n]; [destruct (s =? 0)|]; reflexivity.
Qed.

Lemma testrun_reports_exit_code_witness :
  valid_exit (Signaled 9) /\
  last (out (testrun (sample_externals 0x0109)
               (sample_args (Testrun None ["echo"; "hi"]%string)) None
               ["echo"; "hi"]%string empty_world).2)
  = Some (warning_text (TerminatedBySignal 9)).
Proof.
  split; [simpl; lia|].
  rewrite (testrun_reports_exit_code (sample_externals 0x0109)
             (sample_args (Testrun None ["echo"; "hi"]%string)) None
             "echo" ["hi"]%string empty_world
             (execute (sample_externals 0x0109) "echo" ["echo"; "hi"]%string
                "/tmp/reprozip_0.sqlite3" 1
                (logging (LogStartingTracer "echo" ["echo"; "hi"]%string)
                   (tempfile (sample_externals 0x0109) empty_world).2).2).2
             (print_db (sample_externals 0x0109)
                (MkPath "/tmp/reprozip_0.sqlite3")
                (print banner
                   (execute (sample_externals 0x0109) "echo"
                      ["echo"; "hi"]%string "/tmp/reprozip_0.sqlite3" 1
                      (logging
                         (LogStartingTracer "echo" ["echo"; "hi"]%string)
                         (tempfile (sample_externals 0x0109)
                            empty_world).2).2).2).2).2
             (Signaled 9)).
  - apply last_snoc.
  - simpl; lia.
  - reflexivity.
  - vm_compute. reflexivity.
Defined.

(** C7: [trace] and [testrun] keep the program path and the argument vector
    apart.  The traced binary is the first token of the command line; with
    the arg0 option the argument vector is the command line with element 0
    replaced by that value, the other arguments and the binary unchanged;
    without it the argument vector is the command line as given. *)
Theorem launch_keeps_binary_and_arguments (E : externals) (a : args)
    (arg0 : option string) (binary : string) (rest : list string)
    (append : bool) (database : Path) :
  launch_arguments arg0 (binary :: rest) =
    Ok (binary, match arg0 with
                | Some a0 => a0 :: rest
                | None => binary :: rest
                end) /\
  testrun_body E a arg0 (binary :: rest) database =
    (_ ← logging (LogStartingTracer binary
                    (match arg0 with
                     | Some a0 => a0 :: rest
                     | None => binary :: rest
                     end));
     c ← execute E binary
           (match arg0 with Some a0 => a0 :: rest | None => binary :: rest end)
           (path database) (verbosity a);
     _ ← print banner;
     _ ← print_db E database;
     print_warning c) /\
  trace E a arg0 append (binary :: rest) =
    (_ ← tracer_trace E binary
           (match arg0 with Some a0 => a0 :: rest | None => binary :: rest end)
           (path (Path_of E (dir a))) append (verbosity a);
     write_configuration E (path (Path_of E (dir a))) (identify_packages a)
       false).
Proof.
  repeat split; destruct arg0; reflexivity.
Qed.

(** C8: [testrun] always removes the temporary sqlite3 database file it
    created before it returns, for every outcome: whether the tracer, the
    database dump or the warning completes normally or raises, no file of
    that name is left. *)
Theorem testrun_removes_database (E : externals) (a : args)
    (arg0 : option string) (cmdline : list string) (w : world) :
  fs (tempfile E w).2 !! tempname E w = Some ∅ /\
  fs (testrun E a arg0 cmdline w).2 !! tempname E w = None.
Proof.
  split.
  - simpl. apply lookup_insert_eq.
  - rewrite testrun_world. apply remove_gone.
Qed.

(** ** The queries of the dumper against the schema *)

Section Schema.

Lemma project_all_4 (row : list value) :
  length row = 4%nat ->
  map (fun i => nth i row VNull) [0; 1; 2; 3]%nat = row.
Proof.
  destruct row as [|a [|b [|c [|d [|? ?]]]]]; simpl; intros H;
    try discriminate; reflexivity.
Qed.

Lemma project_all_5 (row : list value) :
  length row = 5%nat ->
  map (fun i => nth i row VNull) [0; 1; 2; 3; 4]%nat = row.
Proof.
  destruct row as [|a [|b [|c [|d [|e [|? ?]]]]]]; simpl; intros H;
    try discriminate; reflexivity.
Qed.

Lemma map_fixed {A} (f : A -> A) (l : list A) :
  Forall (fun x => f x = x) l -> map f l = l.
Proof.
  induction 1 as [|x l Hx _ IH]; simpl; [reflexivity|].
  rewrite Hx, IH. reflexivity.
Qed.

(** Selecting all the columns of a table, in the order of the schema,
    returns its rows. *)
Lemma select_exposed (db : store) (tbl : string) (cols : list string)
    (idxs : list nat) :
  Py.lower tbl = tbl ->
  exposes db (tbl, cols) ->
  mapM (fun c => index_of c cols) cols = Some idxs ->
  (forall row : list value,
     length row = length cols ->
     map (fun i => nth i row VNull) idxs = row) ->
  exists t, db !! tbl = Some t /\ select cols tbl db = Ok (rows t).
Proof.
  intros Hlow (t & Hl & Hc & Hrows) Hidx Hproj. simpl in Hl, Hc.
  exists t. split; [exact Hl|].
  unfold select. rewrite Hlow, Hl, Hc, Hidx. f_equal.
  apply map_fixed. rewrite Hc in Hrows.
  eapply Forall_impl; [exact Hrows|]. intros row Hrow. apply Hproj, Hrow.
Qed.

End Schema.

(** ** The target of [pack] *)

Section PackTarget.

Variable E : externals.
Hypothesis Hnorm : normpath_keeps_name E.

Lemma split_app_free sep p s :
  ~ In sep (list_ascii_of_string s) ->
  Py.split sep (p +:+ s) =
  removelast (Py.split sep p) ++
  [List.last (Py.split sep p) EmptyString +:+ s].
Proof.
  intros Hs. induction p as [|c p IH].
  - apply split_free, Hs.
  - rewrite app_cons. simpl Py.split.
    pose proof (split_nonempty sep p) as Hne.
    destruct (Ascii.eqb c sep).
    + rewrite IH. destruct (Py.split sep p) as [|h t]; [contradiction|].
      reflexivity.
    + rewrite IH. destruct (Py.split sep p) as [|h t]; [contradiction|].
      destruct t as [|h' t]; reflexivity.
Qed.

Lemma basename_app p s :
  ~ In "/"%char (list_ascii_of_string s) ->
  Py.basename (p +:+ s) = Py.basename p +:+ s.
Proof.
  intros Hs. unfold Py.basename.
  rewrite split_app_free by exact Hs. apply last_last.
Qed.

Lemma lower_app s t : Py.lower (s +:+ t) = Py.lower s +:+ Py.lower t.
Proof.
  induction s as [|c s IH]; [reflexivity|].
  rewrite app_cons. simpl. rewrite IH. reflexivity.
Qed.

Lemma endswith_unfold s suf :
  Py.endswith s suf =
  String.eqb s suf ||
  match s with
  | EmptyString => false
  | String _ s' => Py.endswith s' suf
  end.
Proof. destruct s; reflexivity. Qed.

Lemma endswith_app s suf : Py.endswith (s +:+ suf) suf = true.
Proof.
  induction s as [|c s IH].
  - change (EmptyString +:+ suf) with suf.
    rewrite endswith_unfold, String.eqb_refl. reflexivity.
  - rewrite app_cons, endswith_unfold, IH. apply orb_true_r.
Qed.

Lemma name_with_suffix n :
  n +:+ ".rpz" <> ""%string /\ n +:+ ".rpz" <> "."%string /\
  n +:+ ".rpz" <> ".."%string.
Proof.
  repeat split; intros H; apply (f_equal String.length) in H;
    rewrite length_app_str in H; simpl in H; lia.
Qed.

(** The name of the path made at line 192. *)
Lemma suffixed_name p :
  unicodename (Path_of E (p +:+ ".rpz")) = Py.basename p +:+ ".rpz".
Proof.
  unfold unicodename, Path_of. simpl path.
  assert (Hb : Py.basename (p +:+ ".rpz") = Py.basename p +:+ ".rpz").
  { apply basename_app. simpl. intuition discriminate. }
  destruct (name_with_suffix (Py.basename p)) as (H1 & H2 & H3).
  rewrite Hnorm; rewrite Hb; (reflexivity || assumption).
Qed.

(** Whenever a target is chosen, its name ends in [.rpz]. *)
Lemma pack_target_suffix target p :
  pack_target E target = Ok p ->
  Py.endswith (Py.lower (unicodename p)) ".rpz" = true.
Proof.
  unfold pack_target.
  destruct (Py.endswith (Py.lower (unicodename (Path_of E target))) ".rpz")
    eqn:Ht; simpl negb; cbv iota.
  - intros Hp. injection Hp as <-. exact Ht.
  - unfold add_rpz. destruct (PY3 E); [discriminate|].
    destruct (Py.is_ascii _); [|discriminate].
    intros Hp. injection Hp as <-.
    rewrite suffixed_name, lower_app. apply endswith_app.
Qed.

(** On Python 3 a target without the suffix stops [pack] at line 192: the
    packer is not called and nothing is logged. *)
Lemma pack_python_3 a target w :
  PY3 E = true ->
  Py.endswith (Py.lower (unicodename (Path_of E target))) ".rpz" = false ->
  pack_target E target = Raise TypeError /\
  pack E a target w = (Raise TypeError, w).
Proof.
  intros Hpy Ht. unfold pack, pack_target, add_rpz.
  rewrite Ht, Hpy. split; reflexivity.
Qed.

(** On Python 2 the suffix is appended to an ASCII path, the change is
    logged and the packer gets the new target. *)
Lemma pack_python_2 a target w :
  PY3 E = false ->
  Py.is_ascii (path (Path_of E target)) = true ->
  Py.endswith (Py.lower (unicodename (Path_of E target))) ".rpz" = false ->
  pack_target E target
    = Ok (Path_of E (path (Path_of E target) +:+ ".rpz")) /\
  pack E a target w =
  pack_pack E (path (Path_of E (path (Path_of E target) +:+ ".rpz")))
    (path (Path_of E (dir a))) (identify_packages a)
    (logging
       (LogChangingOutput
          (unicodename (Path_of E (path (Path_of E target) +:+ ".rpz"))))
       w).2.
Proof.
  intros Hpy Hascii Ht. unfold pack, pack_target, add_rpz.
  rewrite Ht, Hpy, Hascii. split; reflexivity.
Qed.

(** A target that carries the suffix, in any case, goes to the packer as it
    is. *)
Lemma pack_suffixed a target w :
  Py.endswith (Py.lower (unicodename (Path_of E target))) ".rpz" = true ->
  pack_target E target = Ok (Path_of E target) /\
  pack E a target w =
  pack_pack E (path (Path_of E target)) (path (Path_of E (dir a)))
    (identify_packages a) w.
Proof.
  intros Ht. unfold pack, pack_target. rewrite Ht. split; reflexivity.
Qed.

End PackTarget.

(** C9: the code does not append the suffix on Python 3.  For the target
    [experiment], whose name does not end in [.rpz], line 192 adds the byte
    string [target.path] and the unicode literal ['.rpz'] and raises
    [TypeError]: the packer is never called and no bundle is produced.  On
    Python 2 the same call packs [experiment.rpz], and a target that carries
    the suffix is packed unchanged on both. *)
Theorem pack_raises_TypeError_on_python_3 :
  let a := sample_args (Pack "experiment") in
  pack (packing_externals true) a "experiment" empty_world
    = (Raise TypeError, empty_world) /\
  pack (packing_externals false) a "experiment" empty_world
    = (Ok tt,
       World ∅ ["packing experiment.rpz"%string]
         [LogChangingOutput "experiment.rpz"] []) /\
  pack (packing_externals true) a "Experiment.RPZ" empty_world
    = (Ok tt, World ∅ ["packing Experiment.RPZ"%string] [] []).
Proof. repeat split; reflexivity. Qed.

(** ** The process table of a traced run *)

Section ProcessForest.

Import Tracer.

Lemma next_id_gt tbl r : In r tbl -> (id r < next_id tbl)%nat.
Proof.
  induction tbl as [|p tbl IH]; simpl; [tauto|].
  intros [->|H]; [lia|]. specialize (IH H). lia.
Qed.

Lemma update_exit_id i code tbl :
  map id (update_exit i code tbl) = map id tbl.
Proof.
  unfold update_exit. rewrite map_map. apply map_ext.
  intros p. destruct (Nat.eqb (id p) i); reflexivity.
Qed.

Lemma update_exit_parent i code tbl :
  map parent (update_exit i code tbl) = map parent tbl.
Proof.
  unfold update_exit. rewrite map_map. apply map_ext.
  intros p. destruct (Nat.eqb (id p) i); reflexivity.
Qed.

Lemma update_exit_length i code tbl :
  length (update_exit i code tbl) = length tbl.
Proof. apply length_map. Qed.

Lemma has_id_map_id tbl tbl' i :
  map id tbl = map id tbl' -> has_id tbl i -> has_id tbl' i.
Proof.
  intros Hm (r & Hin & Hid).
  assert (Hi : In i (map id tbl')).
  { rewrite <- Hm. apply in_map_iff. eauto. }
  apply in_map_iff in Hi as (r' & Hid' & Hin'). exists r'. auto.
Qed.

Lemma has_id_app tbl extra i : has_id tbl i -> has_id (tbl ++ extra) i.
Proof.
  intros (r & Hin & Hid). exists r. split; [|exact Hid].
  apply in_app_iff. auto.
Qed.

Lemma child_ok_app tbl extra p : child_ok tbl p -> child_ok (tbl ++ extra) p.
Proof.
  intros (q & Hp & Hlt & Hq). exists q. auto using has_id_app.
Qed.

Lemma sorted_snoc (l : list nat) x :
  StronglySorted lt l -> Forall (fun y => (y < x)%nat) l ->
  StronglySorted lt (l ++ [x]).
Proof.
  induction 1 as [|y l Hs IH Hy]; intros Hall; simpl.
  - repeat constructor.
  - inversion Hall as [|? ? Hyx Hl]; subst. constructor.
    + apply IH, Hl.
    + apply Forall_app. split; [exact Hy|]. constructor; [exact Hyx|constructor].
Qed.

Lemma run_rows_In prior s r :
  In r (run_rows prior s) -> In r (table s).
Proof.
  unfold run_rows. intros H.
  rewrite <- (take_drop (length prior) (table s)).
  apply in_app_iff. auto.
Qed.

(** [start] establishes the invariant. *)
Lemma start_inv ts prior : forest_inv prior (start ts prior).
Proof.
  assert (Hrows : run_rows prior (start ts prior)
                  = [Process (next_id prior) None ts None]).
  { unfold run_rows, start, record_process. simpl table.
    rewrite drop_app_length. reflexivity. }
  constructor.
  - exists (Process (next_id prior) None ts None), [].
    rewrite Hrows. auto.
  - intros i Hi. rewrite Hrows. simpl in Hi.
    apply elem_of_singleton in Hi. subst i.
    eexists. split; [left; reflexivity|reflexivity].
  - rewrite Hrows. repeat constructor.
Qed.

Lemma run_rows_length prior s :
  forest_inv prior s -> (length prior <= length (table s))%nat.
Proof.
  intros [(root & rest & Hrows & _) _ _]. unfold run_rows in Hrows.
  destruct (Nat.le_gt_cases (length prior) (length (table s))) as [H|H];
    [exact H|].
  rewrite drop_ge in Hrows by lia. discriminate.
Qed.

(** A fork of a live process keeps it. *)
Lemma fork_inv prior s reporter ts :
  forest_inv prior s -> reporter ∈ live s ->
  forest_inv prior
    (Supervisor (record_process (Some reporter) ts (table s)).2
                ({[(record_process (Some reporter) ts (table s)).1]}
                 ∪ live s)).
Proof.
  intros Hinv Hlive.
  pose proof (run_rows_length prior s Hinv) as Hlen.
  destruct Hinv as [(root & rest & Hrows & Hroot & Hrest) Hl Hsorted].
  set (child := Process (next_id (table s)) (Some reporter) ts None).
  assert (Hnew : run_rows prior
                   (Supervisor (table s ++ [child])
                      ({[next_id (table s)]} ∪ live s))
                 = run_rows prior s ++ [child]).
  { unfold run_rows. simpl table. apply drop_app_le, Hlen. }
  unfold record_process. simpl fst. simpl snd. fold child.
  constructor.
  - exists root, (rest ++ [child]). rewrite Hnew, Hrows.
    split; [reflexivity|]. split; [exact Hroot|].
    apply Forall_app. split.
    + eapply Forall_impl; [exact Hrest|]. intros p Hp.
      apply (child_ok_app (root :: rest) [child]), Hp.
    + constructor; [|constructor].
      exists reporter. split; [reflexivity|]. split.
      * destruct (Hl reporter Hlive) as (r & Hin & Hid). subst reporter.
        apply next_id_gt, (run_rows_In prior), Hin.
      * change (has_id ((root :: rest) ++ [child]) reporter).
        rewrite <- Hrows. apply has_id_app, Hl, Hlive.
  - intros i Hi. rewrite Hnew.
    apply elem_of_union in Hi as [Hi|Hi].
    + apply elem_of_singleton in Hi. subst i. exists child.
      split; [apply in_app_iff; right; left; reflexivity|reflexivity].
    + apply has_id_app, Hl, Hi.
  - rewrite Hnew, map_app. apply sorted_snoc; [exact Hsorted|].
    apply Forall_forall. intros y Hy.
    apply list_elem_of_In, in_map_iff in Hy as (r & <- & Hin).
    apply next_id_gt, (run_rows_In prior), Hin.
Qed.

Lemma run_rows_update_exit prior s who code l :
  run_rows prior (Supervisor (update_exit who code (table s)) l)
  = update_exit who code (run_rows prior s).
Proof. unfold run_rows, update_exit. simpl table. apply skipn_map. Qed.

Lemma child_ok_update_exit who code tbl p :
  child_ok tbl p ->
  child_ok (update_exit who code tbl)
    (if Nat.eqb (id p) who
     then Process (id p) (parent p) (timestamp p) (Some code) else p).
Proof.
  intros (q & Hp & Hlt & Hq). exists q.
  destruct (Nat.eqb (id p) who); simpl; (split; [exact Hp|]);
    (split; [exact Hlt|]);
    (eapply has_id_map_id; [|exact Hq]); symmetry; apply update_exit_id.
Qed.

(** The exit of a live process keeps it. *)
Lemma exit_inv prior s who code :
  forest_inv prior s ->
  forest_inv prior
    (Supervisor (update_exit who code (table s)) (live s ∖ {[who]})).
Proof.
  intros [(root & rest & Hrows & Hroot & Hrest) Hl Hsorted].
  constructor.
  - rewrite run_rows_update_exit, Hrows.
    eexists _, _. split; [reflexivity|]. split.
    + destruct (Nat.eqb (id root) who); exact Hroot.
    + apply Forall_map. eapply Forall_impl; [exact Hrest|].
      intros p Hp.
      apply (child_ok_update_exit who code (root :: rest)), Hp.
  - intros i Hi. apply elem_of_difference in Hi as [Hi _].
    rewrite run_rows_update_exit.
    eapply has_id_map_id; [|apply Hl, Hi].
    symmetry. apply update_exit_id.
  - rewrite run_rows_update_exit, update_exit_id. exact Hsorted.
Qed.

Lemma handle_inv prior s e :
  forest_inv prior s -> forest_inv prior (handle s e).
Proof.
  intros Hinv. destruct e as [reporter ts|who how|who]; simpl.
  - destruct (decide (reporter ∈ live s)) as [Hin|]; [|exact Hinv].
    apply (fork_inv prior s reporter ts Hinv Hin).
  - destruct (decide (who ∈ live s)); [|exact Hinv].
    apply exit_inv, Hinv.
  - exact Hinv.
Qed.

Lemma fold_handle_inv prior evs s :
  forest_inv prior s -> forest_inv prior (fold_left handle evs s).
Proof.
  revert s. induction evs as [|e evs IH]; intros s Hinv; simpl;
    [exact Hinv|].
  apply IH, handle_inv, Hinv.
Qed.

(** Every run, from a fresh table or appended to a prior one, satisfies
    the invariant at its end. *)
Lemma run_inv ts prior evs : forest_inv prior (run ts prior evs).
Proof. apply fold_handle_inv, start_inv. Qed.

Lemma roots_of_children tbl rest :
  Forall (child_ok tbl) rest -> roots rest = [].
Proof.
  unfold roots. induction 1 as [|p rest (q & Hp & _) _ IH];
    [reflexivity|].
  rewrite filter_cons. destruct (decide (parent p = None)); [congruence|].
  exact IH.
Qed.

Lemma parent_in_smaller root rest p q :
  parent root = None -> Forall (child_ok (root :: rest)) rest ->
  parent_in (root :: rest) p q ->
  (q < p)%nat /\ has_id (root :: rest) q.
Proof.
  intros Hroot Hrest (r & [<-|Hin] & Hid & Hpar); [congruence|].
  rewrite Forall_forall in Hrest.
  destruct (Hrest r) as (q' & Hq' & Hlt & Hhas);
    [apply list_elem_of_In, Hin|].
  assert (q' = q) by congruence. subst q' p. auto.
Qed.

(** Along parent links the id decreases, so no chain comes back. *)
Lemma ancestor_smaller root rest p q :
  parent root = None -> Forall (child_ok (root :: rest)) rest ->
  tc (parent_in (root :: rest)) p q -> (q < p)%nat.
Proof.
  intros Hroot Hrest. induction 1 as [p q H|p q r H _ IH].
  - apply (parent_in_smaller root rest p q Hroot Hrest H).
  - pose proof (parent_in_smaller root rest p q Hroot Hrest H) as [Hlt _].
    lia.
Qed.

End ProcessForest.

(** The rows one run adds form a tree of their own: the first of them is
    the root, with a null parent, and every other one has its parent among
    the rows of the same run. *)
Lemma run_rows_form_a_tree (ts : nat) (prior : list Tracer.process)
    (evs : list Tracer.event) :
  let added := Tracer.run_rows prior (Tracer.run ts prior evs) in
  length (Tracer.roots added) = 1%nat /\
  (exists root rest, added = root :: rest /\ Tracer.parent root = None /\
     Forall (fun p => Tracer.parent p <> None) rest) /\
  (forall p q, Tracer.parent_in added p q ->
     (q < p)%nat /\ Tracer.has_id added q) /\
  (forall p, ~ tc (Tracer.parent_in added) p p) /\
  StronglySorted lt (map Tracer.id added).
Proof.
  intros added.
  destruct (run_inv ts prior evs)
    as [(root & rest & Hrows & Hroot & Hrest) _ Hsorted].
  fold added in Hrows, Hsorted. rewrite Hrows in *.
  split; [|split; [|split; [|split]]].
  - unfold Tracer.roots. rewrite filter_cons.
    destruct (decide (Tracer.parent root = None)); [|contradiction].
    simpl. f_equal. change (length (Tracer.roots rest) = 0%nat).
    rewrite (roots_of_children (root :: rest) rest Hrest). reflexivity.
  - exists root, rest. split; [reflexivity|]. split; [exact Hroot|].
    eapply Forall_impl; [exact Hrest|].
    intros p (q & Hp & _) Hnone. congruence.
  - intros p q. apply parent_in_smaller; assumption.
  - intros p Hcycle.
    pose proof (ancestor_smaller root rest p p Hroot Hrest Hcycle). lia.
  - exact Hsorted.
Qed.

Section WholeTable.

Import Tracer.

Lemma table_ok_nil : table_ok [].
Proof. constructor; constructor. Qed.

Lemma roots_snoc tbl p :
  roots (tbl ++ [p]) =
  roots tbl ++ (if decide (parent p = None) then [p] else []).
Proof.
  unfold roots. rewrite filter_app, filter_cons, filter_nil. reflexivity.
Qed.

Lemma roots_update_exit who code tbl :
  length (roots (update_exit who code tbl)) = length (roots tbl).
Proof.
  unfold roots, update_exit. induction tbl as [|p tbl IH]; [reflexivity|].
  simpl map. rewrite !filter_cons.
  destruct (Nat.eqb (id p) who); simpl parent;
    destruct (decide (parent p = None)); simpl; rewrite IH; reflexivity.
Qed.

(** A new row keeps the table in order when its parent, if any, is a row of
    the table. *)
Lemma record_process_ok tbl par ts :
  table_ok tbl ->
  (forall q, par = Some q -> has_id tbl q) ->
  table_ok (record_process par ts tbl).2.
Proof.
  intros [Hsorted Hrows] Hpar. unfold record_process. simpl snd.
  constructor.
  - rewrite map_app. apply sorted_snoc; [exact Hsorted|].
    apply Forall_forall. intros y Hy.
    apply list_elem_of_In, in_map_iff in Hy as (r & <- & Hin).
    apply next_id_gt, Hin.
  - apply Forall_app. split.
    + eapply Forall_impl; [exact Hrows|]. intros p [Hp|Hp]; [left; exact Hp|].
      right. apply child_ok_app, Hp.
    + constructor; [|constructor]. destruct par as [q|]; [|left; reflexivity].
      right. exists q. split; [reflexivity|].
      destruct (Hpar q eq_refl) as (r & Hin & Hid). split.
      * subst q. simpl id. apply next_id_gt, Hin.
      * apply has_id_app. exists r. auto.
Qed.

Lemma update_exit_ok who code tbl :
  table_ok tbl -> table_ok (update_exit who code tbl).
Proof.
  intros [Hsorted Hrows]. constructor.
  - rewrite update_exit_id. exact Hsorted.
  - unfold update_exit at 2. apply Forall_map.
    eapply Forall_impl; [exact Hrows|]. intros p [Hp|Hp].
    + left. destruct (Nat.eqb (id p) who); exact Hp.
    + right. apply (child_ok_update_exit who code tbl p Hp).
Qed.

Lemma start_ok ts prior :
  table_ok prior ->
  supervisor_ok (start ts prior) /\
  length (roots (table (start ts prior))) = S (length (roots prior)).
Proof.
  intros Hprior. unfold start, record_process. simpl.
  split; [split|].
  - apply (record_process_ok prior None ts Hprior). discriminate.
  - intros i Hi. simpl in Hi. apply elem_of_singleton in Hi. subst i.
    eexists. split; [apply in_app_iff; right; left; reflexivity|reflexivity].
  - rewrite roots_snoc. simpl. rewrite length_app. simpl. lia.
Qed.

Lemma handle_ok s e :
  supervisor_ok s ->
  supervisor_ok (handle s e) /\
  length (roots (table (handle s e))) = length (roots (table s)).
Proof.
  intros [Htbl Hlive]. destruct e as [reporter ts|who how|who]; simpl.
  - destruct (decide (reporter ∈ live s)) as [Hin|];
      [|split; [split; assumption|reflexivity]].
    unfold record_process. simpl. split; [split|].
    + apply (record_process_ok (table s) (Some reporter) ts Htbl).
      intros q Hq. injection Hq as <-. apply Hlive, Hin.
    + intros i Hi. simpl in Hi. apply elem_of_union in Hi as [Hi|Hi].
      * apply elem_of_singleton in Hi. subst i. eexists.
        split; [apply in_app_iff; right; left; reflexivity|reflexivity].
      * apply has_id_app, Hlive, Hi.
    + rewrite roots_snoc. simpl. rewrite app_nil_r. reflexivity.
  - destruct (decide (who ∈ live s));
      [|split; [split; assumption|reflexivity]].
    simpl. split; [split|].
    + apply update_exit_ok, Htbl.
    + intros i Hi. simpl in Hi. apply elem_of_difference in Hi as [Hi _].
      eapply has_id_map_id; [|apply Hlive, Hi].
      symmetry. apply update_exit_id.
    + apply roots_update_exit.
  - split; [split; assumption|reflexivity].
Qed.

Lemma fold_handle_ok evs s :
  supervisor_ok s ->
  supervisor_ok (fold_left handle evs s) /\
  length (roots (table (fold_left handle evs s))) = length (roots (table s)).
Proof.
  revert s. induction evs as [|e evs IH]; intros s Hs; simpl; [auto|].
  destruct (handle_ok s e Hs) as [Hs' Hn].
  destruct (IH _ Hs') as [Hs'' Hn']. split; [exact Hs''|]. lia.
Qed.

(** A run on a table in order leaves it in order, with one root more. *)
Lemma run_ok ts prior evs :
  table_ok prior ->
  table_ok (table (run ts prior evs)) /\
  length (roots (table (run ts prior evs))) = S (length (roots prior)).
Proof.
  intros Hprior. unfold run.
  destruct (start_ok ts prior Hprior) as [Hs Hn].
  destruct (fold_handle_ok evs _ Hs) as [[Ht _] Hn']. split; [exact Ht|]. lia.
Qed.

Lemma sessions_from_ok runs tbl :
  table_ok tbl ->
  table_ok (fold_left (fun t r => table (run r.1 t r.2)) runs tbl) /\
  length (roots (fold_left (fun t r => table (run r.1 t r.2)) runs tbl))
  = (length (roots tbl) + length runs)%nat.
Proof.
  revert tbl. induction runs as [|r runs IH]; intros tbl Htbl; simpl.
  - split; [exact Htbl|lia].
  - destruct (run_ok r.1 tbl r.2 Htbl) as [Ht Hn].
    destruct (IH _ Ht) as [Ht' Hn']. split; [exact Ht'|]. lia.
Qed.

Lemma table_ok_parent tbl p q :
  table_ok tbl -> parent_in tbl p q -> (q < p)%nat /\ has_id tbl q.
Proof.
  intros [_ Hrows] (r & Hin & Hid & Hpar).
  rewrite Forall_forall in Hrows.
  destruct (Hrows r) as [Hnone|(q' & Hq' & Hlt & Hhas)];
    [apply list_elem_of_In, Hin|congruence|].
  assert (q' = q) by congruence. subst q' p. auto.
Qed.

Lemma table_ok_ancestor tbl p q :
  table_ok tbl -> tc (parent_in tbl) p q -> (q < p)%nat.
Proof.
  intros Htbl. induction 1 as [p q H|p q r H _ IH].
  - apply (table_ok_parent tbl p q Htbl H).
  - pose proof (table_ok_parent tbl p q Htbl H) as [Hlt _]. lia.
Qed.

End WholeTable.

(** C6, as stated, fails for a session continued with the continue option:
    after a first run and a second one added to it, the [processes] table
    holds two rows with a null parent, the root of each run. *)
Lemma continued_session_has_two_roots :
  Tracer.sessions [(7%nat, [Tracer.Exit 0 (Exited 0)]);
                   (9%nat, [Tracer.Exit 1 (Exited 0)])]
  = [Tracer.Process 0 None 7 (Some 0); Tracer.Process 1 None 9 (Some 0)] /\
  length (Tracer.roots
            (Tracer.sessions [(7%nat, [Tracer.Exit 0 (Exited 0)]);
                              (9%nat, [Tracer.Exit 1 (Exited 0)])]))
  <> 1%nat.
Proof. split; [vm_compute; reflexivity|vm_compute; discriminate]. Qed.

(** C6 (amended): for every traced run, the parent graph of the
    [processes] table is acyclic and forms a forest: the parent value is
    null for exactly one row per run recorded in the table, the root of that
    run (exactly one row in a fresh session, one more for each run added
    with the continue option), and every other row's parent references a
    row with a strictly smaller id, a parent created strictly earlier, the
    ids growing in insertion order. *)
Theorem processes_table_is_forest (runs : list (nat * list Tracer.event)) :
  let tbl := Tracer.sessions runs in
  length (Tracer.roots tbl) = length runs /\
  (forall ts evs, length (Tracer.roots (Tracer.sessions [(ts, evs)])) = 1%nat)
  /\
  (forall p q, Tracer.parent_in tbl p q ->
     (q < p)%nat /\ Tracer.has_id tbl q) /\
  (forall p, ~ tc (Tracer.parent_in tbl) p p) /\
  StronglySorted lt (map Tracer.id tbl).
Proof.
  intros tbl.
  destruct (sessions_from_ok runs [] table_ok_nil) as [Hok Hn].
  fold (Tracer.sessions runs) in Hok, Hn. fold tbl in Hok, Hn.
  split; [exact Hn|]. split.
  - intros ts evs.
    destruct (sessions_from_ok [(ts, evs)] [] table_ok_nil) as [_ Hone].
    exact Hone.
  - split; [intros p q; apply table_ok_parent, Hok|]. split.
    + intros p Hcycle. pose proof (table_ok_ancestor tbl p p Hok Hcycle). lia.
    + apply Hok.
Qed.

(** ** What the dumper prints *)

Section DumperOutput.

Variable E : externals.

Lemma printed_nil w : printed w [] = w.
Proof. destruct w. unfold printed. simpl. rewrite app_nil_r. reflexivity. Qed.

Lemma printed_app w a b : printed (printed w a) b = printed w (a ++ b).
Proof. unfold printed. simpl. rewrite <- app_assoc. reflexivity. Qed.

Lemma print_printed s w : print s w = (Ok tt, printed w [s]).
Proof. reflexivity. Qed.

(** The loop over the rows: every row formatted prints its line and a
    rule; the first row that cannot be formatted ends the loop with its
    exception, the lines of the rows before it being printed already. *)
Lemma for_each_all (line : list value -> res string) header rows ls w :
  mapM line rows = Ok ls ->
  for_each rows (fun row => l ← lift (line row); _ ← print l; print header) w
  = (Ok tt, printed w (row_lines header ls)).
Proof.
  revert ls w. induction rows as [|row rows IH]; intros ls w Hm.
  - injection Hm as <-. simpl. rewrite printed_nil. reflexivity.
  - simpl in Hm. destruct (line row) as [l|e] eqn:Hl; [|discriminate].
    simpl in Hm. destruct (mapM line rows) as [ls'|e] eqn:Hrest;
      [|discriminate].
    injection Hm as <-. simpl for_each.
    unfold mbind at 1, M_bind at 1. unfold mbind at 1, M_bind at 1.
    unfold lift at 1. rewrite Hl.
    unfold mbind at 1, M_bind at 1. rewrite !print_printed, printed_app.
    rewrite (IH ls' _ eq_refl), printed_app. reflexivity.
Qed.

Lemma for_each_stops (line : list value -> res string) header pre bad post
    ls e w :
  mapM line pre = Ok ls -> line bad = Raise e ->
  for_each (pre ++ bad :: post)
    (fun row => l ← lift (line row); _ ← print l; print header) w
  = (Raise e, printed w (row_lines header ls)).
Proof.
  revert ls w. induction pre as [|row pre IH]; intros ls w Hm Hbad.
  - injection Hm as <-. simpl.
    unfold mbind, M_bind, lift. rewrite Hbad, printed_nil. reflexivity.
  - simpl in Hm. destruct (line row) as [l|e'] eqn:Hl; [|discriminate].
    simpl in Hm. destruct (mapM line pre) as [ls'|e'] eqn:Hrest;
      [|discriminate].
    injection Hm as <-. simpl for_each.
    unfold mbind at 1, M_bind at 1. unfold mbind at 1, M_bind at 1.
    unfold lift at 1. rewrite Hl.
    unfold mbind at 1, M_bind at 1. rewrite !print_printed, printed_app.
    rewrite (IH ls' _ eq_refl Hbad), printed_app. reflexivity.
Qed.

Lemma dump_table_all conn tbl cols title header names line rows ls w :
  select cols tbl conn = Ok rows -> mapM line rows = Ok ls ->
  dump_table conn tbl cols title header names line w
  = (Ok tt, printed w ([title; header; names; header] ++ row_lines header ls)).
Proof.
  intros Hs Hm. unfold dump_table.
  unfold mbind at 1, M_bind at 1, lift at 1. rewrite Hs.
  unfold mbind at 1, M_bind at 1. rewrite print_printed.
  unfold mbind at 1, M_bind at 1. rewrite print_printed, printed_app.
  unfold mbind at 1, M_bind at 1. rewrite print_printed, printed_app.
  unfold mbind at 1, M_bind at 1. rewrite print_printed, printed_app.
  rewrite (for_each_all line header rows ls _ Hm), printed_app. reflexivity.
Qed.

Lemma dump_table_no_table conn tbl cols title header names line e w :
  select cols tbl conn = Raise e ->
  dump_table conn tbl cols title header names line w = (Raise e, w).
Proof.
  intros Hs. unfold dump_table, mbind, M_bind, lift. rewrite Hs. reflexivity.
Qed.

End DumperOutput.

Section PrintDb.

Variable E : externals.

Lemma print_db_blocks database w :
  is_Some (fs w !! path database) ->
  print_db E database w =
  (_ ← dump_table (database_of w database) "processes" processes_columns
        (nl +:+ "Processes:") processes_header
        "|  id  | parent |  exit |     timestamp    |"
        process_line;
   _ ← dump_table (database_of w database) "executed_files"
        executed_files_columns
        (nl +:+ "Executed files:") executed_header
        ("|   id   |     timestamp    | process | name and argv              "
         +:+ "           |")
        (executed_line E);
   dump_table (database_of w database) "opened_files" opened_files_columns
        (nl +:+ "Files:") opened_header
        ("|   id   |     timestamp    | process | mode | name                "
         +:+ "           |")
        opened_line) w.
Proof.
  intros [db Hdb]. unfold print_db, database_of.
  destruct (PY3 E); unfold mbind at 1, M_bind at 1, connect, str_of_Path;
    rewrite Hdb; reflexivity.
Qed.

(** A query can only succeed on a file that exists. *)
Lemma select_ok_file database w cols tbl rows :
  select cols tbl (database_of w database) = Ok rows ->
  is_Some (fs w !! path database).
Proof.
  unfold database_of. destruct (fs w !! path database) as [db|]; [eauto|].
  unfold select. simpl. rewrite lookup_empty. discriminate.
Qed.

Lemma print_db_no_processes database w e :
  is_Some (fs w !! path database) ->
  select processes_columns "processes" (database_of w database) = Raise e ->
  print_db E database w = (Raise e, w).
Proof.
  intros Hfile Hs. rewrite print_db_blocks by exact Hfile.
  apply bind_raise. apply dump_table_no_table, Hs.
Qed.

Lemma dump_table_stops conn tbl cols title header names line pre bad post
    ls e w :
  select cols tbl conn = Ok (pre ++ bad :: post) ->
  mapM line pre = Ok ls -> line bad = Raise e ->
  dump_table conn tbl cols title header names line w
  = (Raise e,
     printed w ([title; header; names; header] ++ row_lines header ls)).
Proof.
  intros Hs Hm Hbad. unfold dump_table.
  unfold mbind at 1, M_bind at 1, lift at 1. rewrite Hs.
  unfold mbind at 1, M_bind at 1. rewrite print_printed.
  unfold mbind at 1, M_bind at 1. rewrite print_printed, printed_app.
  unfold mbind at 1, M_bind at 1. rewrite print_printed, printed_app.
  unfold mbind at 1, M_bind at 1. rewrite print_printed, printed_app.
  rewrite (for_each_stops line _ pre bad post ls e _ Hm Hbad).
  rewrite printed_app. reflexivity.
Qed.

End PrintDb.

(** ** Rows the dumper can and cannot format *)

Section RowTypes.

Variable E : externals.

Lemma f_exit_int n : exists s, f_exit (VInt n) = Ok s.
Proof.
  unfold f_exit, and_v, fmt_d_left_v.
  change (Ok ?x ≫= ?k) with (k x). cbv beta.
  destruct (negb (Z.land n 256 =? 0)); eauto.
Qed.

Lemma process_line_ok_iff row :
  raised (process_line row) = None <-> process_row_ok row = true.
Proof.
  destruct row as [|r_id [|r_parent [|r_timestamp [|r_exit [|? ?]]]]];
    try (simpl; split; discriminate).
  unfold process_line.
  destruct r_id, r_parent, r_timestamp, r_exit;
    repeat match goal with
           | |- context [f_exit (VInt ?x)] =>
               let s := fresh "s" in
               let Hs := fresh "Hs" in
               destruct (f_exit_int x) as [s Hs]; rewrite Hs
           end;
    simpl; split; (reflexivity || discriminate).
Qed.

Lemma cmdline_of_text name a :
  a <> EmptyString -> exists c, cmdline_of E (VText name) (VText a) = Ok c.
Proof.
  intros Ha. unfold cmdline_of.
  destruct (split_argv_total a) as [argv Hargv]. rewrite Hargv.
  destruct argv as [|a0 argv].
  - apply split_argv_empty_iff in Hargv. contradiction.
  - simpl. destruct (negb _); eauto.
Qed.

Lemma executed_line_ok_iff row :
  raised (executed_line E row) = None <-> executed_row_ok row = true.
Proof.
  destruct row as [|r_id [|r_name [|r_timestamp [|r_process [|r_argv [|? ?]]]]]];
    try (simpl; split; discriminate).
  destruct r_id as [|i|?]; try (simpl; split; discriminate).
  destruct r_timestamp as [|t|?];
    try (destruct r_name; simpl; split; discriminate).
  destruct r_process as [|p|?];
    try (destruct r_name; simpl; split; discriminate).
  destruct r_argv as [|?|a].
  - destruct r_name; simpl; split; discriminate.
  - destruct r_name; simpl; split; discriminate.
  - destruct (String.eqb_spec a "") as [->|Ha].
    + destruct r_name; simpl; split; discriminate.
    + destruct r_name as [|?|name].
      * unfold executed_line, executed_row_ok.
        assert (Hc : exists e, cmdline_of E VNull (VText a) = Raise e).
        { unfold cmdline_of. destruct (split_argv_total a) as [argv ->].
          destruct argv; simpl; eauto. }
        destruct Hc as [e ->]. simpl. split; discriminate.
      * unfold executed_line, executed_row_ok.
        assert (Hc : exists e, cmdline_of E (VInt n) (VText a) = Raise e).
        { unfold cmdline_of. destruct (split_argv_total a) as [argv ->].
          destruct argv; simpl; eauto. }
        destruct Hc as [e ->]. simpl. split; discriminate.
      * unfold executed_line, executed_row_ok.
        destruct (cmdline_of_text name a Ha) as [c ->]. simpl.
        destruct (String.eqb_spec a ""); [contradiction|].
        split; reflexivity.
Qed.

Lemma opened_line_ok_iff row :
  raised (opened_line row) = None <-> opened_row_ok row = true.
Proof.
  destruct row as [|r_id [|r_name [|r_timestamp [|r_mode [|r_process [|? ?]]]]]];
    try (simpl; split; discriminate).
  destruct r_id, r_name, r_timestamp, r_mode, r_process; simpl; split;
    (reflexivity || discriminate).
Qed.

Lemma mapM_all_ok {A} (line : A -> res string) (rows : list A) :
  Forall (fun row => raised (line row) = None) rows ->
  exists ls, mapM line rows = Ok ls /\ length ls = length rows.
Proof.
  induction 1 as [|row rows Hrow _ (ls & Hls & Hlen)].
  - exists []. split; reflexivity.
  - destruct (line row) as [l|e] eqn:Hl; [|discriminate].
    exists (l :: ls). simpl. rewrite Hl. simpl. rewrite Hls. simpl.
    split; [reflexivity|]. rewrite Hlen. reflexivity.
Qed.

Lemma row_lines_length header ls :
  length (row_lines header ls) = (2 * length ls)%nat.
Proof.
  unfold row_lines. induction ls as [|l ls IH]; simpl; [reflexivity|].
  rewrite IH. lia.
Qed.

End RowTypes.

(** ** Further properties of the dumper *)

Section Frames.

Variable E : externals.

Lemma bind_frame {A B} (m : M A) (k : A -> M B) w :
  (exists l, (m w).2 = printed w l) ->
  (forall a w', exists l, (k a w').2 = printed w' l) ->
  exists l, ((m ≫= k) w).2 = printed w l.
Proof.
  intros [l Hm] Hk. unfold mbind, M_bind.
  destruct (m w) as [[a|e] w']; simpl in Hm; subst w'.
  - destruct (Hk a (printed w l)) as [l' Hl']. exists (l ++ l').
    rewrite Hl'. apply printed_app.
  - exists l. reflexivity.
Qed.

Lemma print_frame s w : exists l, (print s w).2 = printed w l.
Proof. exists [s]. reflexivity. Qed.

Lemma lift_frame {A} (r : res A) w : exists l, (lift r w).2 = printed w l.
Proof. exists []. simpl. symmetry. apply printed_nil. Qed.

Lemma for_each_frame (line : list value -> res string) header rows w :
  exists l,
    (for_each rows
       (fun row => x ← lift (line row); _ ← print x; print header) w).2
    = printed w l.
Proof.
  revert w. induction rows as [|row rows IH]; intros w.
  - exists []. simpl. symmetry. apply printed_nil.
  - simpl for_each. apply bind_frame; [|intros; apply IH].
    apply bind_frame; [apply lift_frame|]. intros x w'.
    apply bind_frame; [apply print_frame|]. intros; apply print_frame.
Qed.

Lemma dump_table_frame conn tbl cols title header names line w :
  exists l,
    (dump_table conn tbl cols title header names line w).2 = printed w l.
Proof.
  unfold dump_table.
  apply bind_frame; [apply lift_frame|]. intros rows w1.
  apply bind_frame; [apply print_frame|]. intros ? w2.
  apply bind_frame; [apply print_frame|]. intros ? w3.
  apply bind_frame; [apply print_frame|]. intros ? w4.
  apply bind_frame; [apply print_frame|]. intros ? w5.
  apply for_each_frame.
Qed.

End Frames.

(** X1: [print_db] acts on standard output only: reading a database file
    that exists, whether it completes or raises, at whatever row, it leaves
    the files, the log and the usage report as they were, and what had been
    printed is still there, followed by the lines of the dump. *)
Theorem print_db_only_prints (E : externals) (database : Path) (w : world) :
  is_Some (fs w !! path database) ->
  exists lines, (print_db E database w).2 = printed w lines.
Proof.
  intros Hfile. rewrite print_db_blocks by exact Hfile.
  apply bind_frame; [apply dump_table_frame|]. intros ? w1.
  apply bind_frame; [apply dump_table_frame|]. intros ? w2.
  apply dump_table_frame.
Qed.

Lemma print_db_only_prints_witness :
  exists lines,
    (print_db (sample_externals 0) sample_database
       (world_with unfinished_store)).2
    = printed (world_with unfinished_store) lines.
Proof.
  apply (print_db_only_prints (sample_externals 0) sample_database
           (world_with unfinished_store)).
  exists unfinished_store. reflexivity.
Defined.

(** X2: on an empty database file, one that holds no table at all,
    [print_db] raises [OperationalError] at its first query, before
    anything is printed. *)
Theorem print_db_of_empty_database (E : externals) (database : Path)
    (w : world) :
  fs w !! path database = Some ∅ ->
  print_db E database w = (Raise OperationalError, w).
Proof.
  intros Hfile. apply print_db_no_processes; [eauto|].
  unfold select, database_of. rewrite Hfile. simpl. rewrite lookup_empty.
  reflexivity.
Qed.

Lemma print_db_of_empty_database_witness :
  print_db (sample_externals 0) sample_database (world_with ∅)
  = (Raise OperationalError, world_with ∅).
Proof.
  apply (print_db_of_empty_database (sample_externals 0) sample_database
           (world_with ∅)).
  reflexivity.
Defined.

(** X3: the dump of the processes stops at the first row that cannot be
    formatted: the title, the column names and two lines for each row
    before it are printed, then the exception of that row is raised and
    neither the rows after it nor the other two tables are shown. *)
Theorem print_db_stops_at_bad_process (E : externals) (database : Path)
    (w : world) (pre post : list (list value)) (bad : list value)
    (ls : list string) (e : exn) :
  select processes_columns "processes" (database_of w database)
    = Ok (pre ++ bad :: post) ->
  mapM process_line pre = Ok ls ->
  process_line bad = Raise e ->
  print_db E database w = (Raise e, printed w (processes_block ls)).
Proof.
  intros Hs Hm Hbad.
  rewrite print_db_blocks by (eapply select_ok_file; exact Hs).
  apply bind_raise.
  apply (dump_table_stops _ _ _ _ _ _ _ pre bad post ls e w Hs Hm Hbad).
Qed.

Lemma print_db_stops_at_bad_process_witness :
  print_db (sample_externals 0) sample_database (world_with unfinished_store)
  = (Raise TypeError,
     printed (world_with unfinished_store)
       (processes_block
          ["|    1 |        |    0  |              100 |"%string])).
Proof.
  apply (print_db_stops_at_bad_process (sample_externals 0) sample_database
           (world_with unfinished_store)
           [[VInt 1; VNull; VInt 100; VInt 0]]
           [[VInt 3; VInt 1; VInt 106; VInt 0]]
           [VInt 2; VInt 1; VInt 105; VNull]).
  - vm_compute. reflexivity.
  - reflexivity.
  - reflexivity.
Defined.

(** X4: a row of [executed_files] that cannot be formatted, such as one
    with an empty argv field, ends the dump in the middle of the second
    table: the processes are shown in full, the executions up to the row
    before it, and the opened files not at all. *)
Theorem print_db_stops_at_bad_execution (E : externals) (database : Path)
    (w : world) (procs pre post : list (list value)) (bad : list value)
    (l1 ls : list string) (e : exn) :
  select processes_columns "processes" (database_of w database) = Ok procs ->
  mapM process_line procs = Ok l1 ->
  select executed_files_columns "executed_files" (database_of w database)
    = Ok (pre ++ bad :: post) ->
  mapM (executed_line E) pre = Ok ls ->
  executed_line E bad = Raise e ->
  print_db E database w
  = (Raise e, printed w (processes_block l1 ++ executed_block ls)).
Proof.
  intros Hs1 Hm1 Hs2 Hm2 Hbad.
  rewrite print_db_blocks by (eapply select_ok_file; exact Hs1).
  rewrite (bind_ok _ _ w tt (printed w (processes_block l1)))
    by (apply (dump_table_all _ _ _ _ _ _ _ procs l1 w Hs1 Hm1)).
  rewrite (bind_raise _ _ _ e
             (printed (printed w (processes_block l1)) (executed_block ls)))
    by (apply (dump_table_stops _ _ _ _ _ _ _ pre bad post ls e _ Hs2 Hm2 Hbad)).
  rewrite printed_app. reflexivity.
Qed.

Lemma print_db_stops_at_bad_execution_witness :
  print_db (sample_externals 0) sample_database (world_with empty_argv_store)
  = (Raise IndexError,
     printed (world_with empty_argv_store)
       (processes_block ["|    1 |        |    0  |              100 |"%string]
        ++ executed_block
             ["|      1 |              101 |       1 | 'echo' 'hi'" +:+
              "                           |"])).
Proof.
  apply (print_db_stops_at_bad_execution (sample_externals 0) sample_database
           (world_with empty_argv_store)
           [[VInt 1; VNull; VInt 100; VInt 0]]
           [[VInt 1; VText "/bin/echo"; VInt 101; VInt 1;
             VText ("echo" +:+ String Py.NUL "hi" +:+ String Py.NUL "")]]
           [[VInt 3; VText "/bin/true"; VInt 104; VInt 1;
             VText ("true" +:+ String Py.NUL "")]]
           [VInt 2; VText "/bin/true"; VInt 103; VInt 1; VText ""]).
  - vm_compute. reflexivity.
  - reflexivity.
  - vm_compute. reflexivity.
  - reflexivity.
  - reflexivity.
Defined.

(** X5: a process that has not ended cannot be dumped.  A [processes] row
    with an integer id and timestamp and a null or integer parent is
    formatted when its exit code is an integer, and raises [TypeError], at
    the test of bit [0x0100], when its exit code is null. *)
Theorem unfinished_process_is_not_dumped (r_id r_timestamp : Z)
    (r_parent : option Z) :
  let parent := match r_parent with Some q => VInt q | None => VNull end in
  process_line [VInt r_id; parent; VInt r_timestamp; VNull]
    = Raise TypeError /\
  forall r_exit : Z,
    raised (process_line [VInt r_id; parent; VInt r_timestamp; VInt r_exit])
    = None.
Proof.
  intros parent. split.
  - destruct r_parent; reflexivity.
  - intros r_exit. apply process_line_ok_iff.
    destruct r_parent; reflexivity.
Qed.

Section WellTypedStore.

Variable E : externals.

Lemma row_ok_length_4 row : process_row_ok row = true -> length row = 4%nat.
Proof.
  destruct row as [|? [|? [|? [|? [|? ?]]]]]; simpl; intros H;
    (discriminate || reflexivity).
Qed.

Lemma executed_ok_length_5 row :
  executed_row_ok row = true -> length row = 5%nat.
Proof.
  destruct row as [|? [|? [|? [|? [|? [|? ?]]]]]]; simpl; intros H;
    (discriminate || reflexivity).
Qed.

Lemma opened_ok_length_5 row :
  opened_row_ok row = true -> length row = 5%nat.
Proof.
  destruct row as [|? [|? [|? [|? [|? [|? ?]]]]]]; simpl; intros H;
    (discriminate || reflexivity).
Qed.

(** A table with the columns of the schema and rows of the right length is
    read back whole. *)
Lemma select_table (db : store) tbl cols idxs t :
  Py.lower tbl = tbl ->
  db !! tbl = Some t -> columns t = cols ->
  Forall (fun row => length row = length cols) (rows t) ->
  mapM (fun c => index_of c cols) cols = Some idxs ->
  (forall row : list value,
     length row = length cols ->
     map (fun i => nth i row VNull) idxs = row) ->
  select cols tbl db = Ok (rows t).
Proof.
  intros Hlow Hl Hc Hrows Hidx Hproj.
  destruct (select_exposed db tbl cols idxs Hlow) as (t' & Hl' & Hs);
    [|exact Hidx|exact Hproj|].
  - exists t. simpl. rewrite Hc. auto.
  - rewrite Hl in Hl'. injection Hl' as <-. exact Hs.
Qed.

Lemma database_of_file database w tbl t :
  database_of w database !! tbl = Some t ->
  is_Some (fs w !! path database).
Proof.
  unfold database_of. destruct (fs w !! path database) as [db|]; [eauto|].
  simpl. rewrite lookup_empty. discriminate.
Qed.

End WellTypedStore.

(** A database of well-typed rows is dumped whole. *)
Lemma print_db_all_rows (E : externals) (database : Path)
    (w : world) (t1 t2 t3 : table) :
  database_of w database !! "processes"%string = Some t1 ->
  database_of w database !! "executed_files"%string = Some t2 ->
  database_of w database !! "opened_files"%string = Some t3 ->
  columns t1 = processes_columns ->
  columns t2 = executed_files_columns ->
  columns t3 = opened_files_columns ->
  Forall (fun row => process_row_ok row = true) (rows t1) ->
  Forall (fun row => executed_row_ok row = true) (rows t2) ->
  Forall (fun row => opened_row_ok row = true) (rows t3) ->
  exists l1 l2 l3,
    mapM process_line (rows t1) = Ok l1 /\
    mapM (executed_line E) (rows t2) = Ok l2 /\
    mapM opened_line (rows t3) = Ok l3 /\
    print_db E database w
    = (Ok tt,
       printed w (processes_block l1 ++ executed_block l2 ++ opened_block l3))
    /\
    length (processes_block l1 ++ executed_block l2 ++ opened_block l3)
    = (12 + 2 * (length (rows t1) + length (rows t2) + length (rows t3)))%nat.
Proof.
  intros L1 L2 L3 C1 C2 C3 R1 R2 R3.
  assert (S1 : select processes_columns "processes" (database_of w database)
               = Ok (rows t1)).
  { apply (select_table _ _ _ [0; 1; 2; 3]%nat t1 eq_refl L1 C1);
      [|reflexivity|exact project_all_4].
    eapply Forall_impl; [exact R1|]. intros row. apply row_ok_length_4. }
  assert (S2 : select executed_files_columns "executed_files"
                 (database_of w database) = Ok (rows t2)).
  { apply (select_table _ _ _ [0; 1; 2; 3; 4]%nat t2 eq_refl L2 C2);
      [|reflexivity|exact project_all_5].
    eapply Forall_impl; [exact R2|]. intros row. apply executed_ok_length_5. }
  assert (S3 : select opened_files_columns "opened_files"
                 (database_of w database) = Ok (rows t3)).
  { apply (select_table _ _ _ [0; 1; 2; 3; 4]%nat t3 eq_refl L3 C3);
      [|reflexivity|exact project_all_5].
    eapply Forall_impl; [exact R3|]. intros row. apply opened_ok_length_5. }
  destruct (mapM_all_ok process_line (rows t1)) as (l1 & M1 & N1).
  { eapply Forall_impl; [exact R1|]. intros row. apply process_line_ok_iff. }
  destruct (mapM_all_ok (executed_line E) (rows t2)) as (l2 & M2 & N2).
  { eapply Forall_impl; [exact R2|]. intros row. apply executed_line_ok_iff. }
  destruct (mapM_all_ok opened_line (rows t3)) as (l3 & M3 & N3).
  { eapply Forall_impl; [exact R3|]. intros row. apply opened_line_ok_iff. }
  exists l1, l2, l3. repeat (split; [assumption|]). split.
  - rewrite print_db_blocks by (eapply database_of_file; exact L1).
    rewrite (bind_ok _ _ w tt (printed w (processes_block l1)))
      by (apply (dump_table_all _ _ _ _ _ _ _ (rows t1) l1 w S1 M1)).
    rewrite (bind_ok _ _ _ tt
               (printed (printed w (processes_block l1)) (executed_block l2)))
      by (apply (dump_table_all _ _ _ _ _ _ _ (rows t2) l2 _ S2 M2)).
    rewrite (dump_table_all _ _ _ _ _ _ _ (rows t3) l3 _ S3 M3).
    rewrite !printed_app. reflexivity.
  - unfold processes_block, executed_block, opened_block.
    rewrite !length_app, !row_lines_length, N1, N2, N3. simpl. lia.
Qed.

(** X6: on a database whose three tables have the columns of the queries and
    only well-typed rows, [print_db] completes and shows every row of every
    table: for each table in turn it calls [print] four times for the
    heading (the title, which starts with a line feed, a rule, the column
    names and a rule) and twice per row (the row and a rule), 12 + 2 n
    calls for n rows in all. *)
Theorem print_db_prints_every_row (E : externals) (database : Path)
    (w : world) (t1 t2 t3 : table) :
  database_of w database !! "processes"%string = Some t1 ->
  database_of w database !! "executed_files"%string = Some t2 ->
  database_of w database !! "opened_files"%string = Some t3 ->
  columns t1 = processes_columns ->
  columns t2 = executed_files_columns ->
  columns t3 = opened_files_columns ->
  Forall (fun row => process_row_ok row = true) (rows t1) ->
  Forall (fun row => executed_row_ok row = true) (rows t2) ->
  Forall (fun row => opened_row_ok row = true) (rows t3) ->
  exists l1 l2 l3,
    mapM process_line (rows t1) = Ok l1 /\
    mapM (executed_line E) (rows t2) = Ok l2 /\
    mapM opened_line (rows t3) = Ok l3 /\
    print_db E database w
    = (Ok tt,
       printed w (processes_block l1 ++ executed_block l2 ++ opened_block l3))
    /\
    length (processes_block l1 ++ executed_block l2 ++ opened_block l3)
    = (12 + 2 * (length (rows t1) + length (rows t2) + length (rows t3)))%nat.
Proof. apply print_db_all_rows. Qed.

Lemma print_db_prints_every_row_witness :
  exists lines,
    print_db (sample_externals 0) sample_database (world_with sample_store)
    = (Ok tt, printed (world_with sample_store) lines) /\
    length lines = 18%nat.
Proof.
  destruct (print_db_prints_every_row (sample_externals 0) sample_database
              (world_with sample_store)
              (Table ["id"; "parent"; "timestamp"; "exitcode"]%string
                 [[VInt 1; VNull; VInt 100; VInt 0]])
              (Table ["id"; "name"; "timestamp"; "process"; "argv"]%string
                 [[VInt 1; VText "/bin/echo"; VInt 101; VInt 1;
                   VText ("echo" +:+ String Py.NUL "hi" +:+
                          String Py.NUL "")]])
              (Table ["id"; "name"; "timestamp"; "mode"; "process"]%string
                 [[VInt 1; VText "/etc/passwd"; VInt 102; VInt 1; VInt 1]]))
    as (l1 & l2 & l3 & _ & _ & _ & Hp & Hn);
    try (vm_compute; reflexivity); try (repeat constructor).
  eexists. split; [exact Hp|exact Hn].
Defined.

(** ** The argv field as the dumper reads it *)

Section ArgvField.

Lemma split_segments_free sep a :
  Forall (fun s => ~ In sep (list_ascii_of_string s)) (Py.split sep a).
Proof.
  induction a as [|c a IH]; simpl.
  - constructor; [simpl; tauto|constructor].
  - destruct (Ascii.eqb_spec c sep) as [->|Hne].
    + constructor; [simpl; tauto|exact IH].
    + destruct (Py.split sep a) as [|h t]; [repeat constructor; simpl; tauto|].
      inversion IH as [|? ? Hh Ht]; subst.
      constructor; [|exact Ht]. simpl. tauto.
Qed.

Lemma join_snoc_empty sep l :
  l <> [] ->
  Py.join sep (l ++ [EmptyString]) = Py.join sep l +:+ sep.
Proof.
  induction l as [|x l IH]; intros Hne; [contradiction|].
  destruct l as [|y l].
  - simpl. rewrite app_empty_r. reflexivity.
  - change ((x :: y :: l) ++ [EmptyString])
      with (x :: (y :: l) ++ [EmptyString]).
    change ((y :: l) ++ [EmptyString]) with (y :: l ++ [EmptyString]) at 1.
    rewrite join_cons.
    change (y :: l ++ [EmptyString]) with ((y :: l) ++ [EmptyString]).
    rewrite IH by discriminate. rewrite join_cons.
    rewrite !app_assoc_str. reflexivity.
Qed.

End ArgvField.

(** X7: reading an argv field loses nothing but one trailing separator:
    for every stored string, line 87 never fails, the segments read are
    NUL-free, and joining them again with NUL gives the stored string back,
    or the stored string without its final NUL. *)
Theorem split_argv_keeps_the_field (a : string) :
  exists argv,
    split_argv a = Ok argv /\
    Forall nul_free argv /\
    (Py.join (String Py.NUL EmptyString) argv = a \/
     Py.join (String Py.NUL EmptyString) argv +:+ String Py.NUL EmptyString
       = a).
Proof.
  pose proof (split_nonempty Py.NUL a) as Hne.
  pose proof (split_segments_free Py.NUL a) as Hfree.
  pose proof (join_split Py.NUL a) as Hjoin.
  unfold split_argv.
  destruct (exists_last Hne) as (l & final & Heq). rewrite Heq in *.
  rewrite last_item_snoc.
  change (Ok final ≫= ?k) with (k final). cbv beta.
  destruct (String.eqb_spec final "") as [->|Hfinal].
  - exists l. unfold Py.drop_last. rewrite removelast_last.
    split; [reflexivity|]. apply Forall_app in Hfree as [Hl _].
    split; [exact Hl|].
    destruct l as [|x l].
    + left. simpl in Hjoin. exact Hjoin.
    + right. rewrite <- join_snoc_empty by discriminate. exact Hjoin.
  - exists (l ++ [final]). split; [reflexivity|].
    split; [exact Hfree|]. left. exact Hjoin.
Qed.

(** ** The width of the exit column *)

Section ExitColumn.

Lemma range_cases (k : nat) (P : Z -> bool) :
  forallb P (map Z.of_nat (seq 0 k)) = true ->
  forall n, 0 <= n < Z.of_nat k -> P n = true.
Proof.
  intros Hall n Hn. rewrite forallb_forall in Hall. apply Hall.
  apply in_map_iff. exists (Z.to_nat n). split; [lia|].
  apply in_seq. lia.
Qed.

End ExitColumn.

(** X8: the exit column of a [processes] row is as wide as its heading, 7
    characters, exactly for an exit code below 100; for a code from 100 to
    255, and for every code from 256 to 511, which is how a termination by
    signal is stored, it is 8 characters wide, which puts the row out of
    line with the rules. *)
Theorem exit_column_width (r_exit : Z) :
  0 <= r_exit <= 511 ->
  exists s,
    f_exit (VInt r_exit) = Ok s /\
    String.length s = if r_exit <? 100 then 7%nat else 8%nat.
Proof.
  intros H.
  pose proof (range_cases 512
    (fun n => match f_exit (VInt n) with
              | Ok s => Nat.eqb (String.length s)
                          (if n <? 100 then 7%nat else 8%nat)
              | Raise _ => false
              end) eq_refl r_exit) as Hb.
  cbv beta in Hb. specialize (Hb ltac:(lia)).
  destruct (f_exit (VInt r_exit)) as [s|]; [|discriminate].
  exists s. split; [reflexivity|]. apply Nat.eqb_eq, Hb.
Qed.

Lemma exit_column_width_witness :
  0 <= 0x0109 <= 511 /\
  exists s, f_exit (VInt 0x0109) = Ok s /\ String.length s = 8%nat.
Proof.
  split; [lia|].
  apply (exit_column_width 0x0109). lia.
Defined.

(** X9: whatever integer the tracer returns, also a negative or a large
    one, the signal number [testrun] puts in its warning lies between 0 and
    255, and that warning is printed only for a code with bit [0x0100]
    set. *)
Theorem reported_signal_is_a_byte (c n : Z) :
  warning_of c = Some (TerminatedBySignal n) ->
  0 <= n <= 255 /\ n = Z.land c 0xFF /\ Z.land c 0x0100 <> 0.
Proof.
  unfold warning_of. destruct (c =? 0); simpl; [discriminate|].
  destruct (Z.eqb_spec (Z.land c 256) 0) as [|Hbit]; simpl; [discriminate|].
  intros Hn. injection Hn as <-. split; [|split; [reflexivity|exact Hbit]].
  change 255 with (Z.ones 8) at 1 2. rewrite Z.land_ones by lia.
  pose proof (Z.mod_pos_bound c (2 ^ 8)). lia.
Qed.

Lemma reported_signal_is_a_byte_witness :
  warning_of (-1) = Some (TerminatedBySignal 255) /\ 0 <= 255 <= 255.
Proof.
  split; [reflexivity|].
  apply (reported_signal_is_a_byte (-1) 255). reflexivity.
Defined.

(** ** Further properties of the commands *)

(** X10: [main] tells three outcomes of a subcommand apart.  After a normal
    return and after any [Exception] it files the result in the usage
    report ([success], or the class name of the exception) and leaves with
    [SystemExit(0)]; an exception that is not an [Exception], such as
    [KeyboardInterrupt] or [SystemExit], passes through unchanged and no
    result is filed.  The subcommand starts after the command name was
    recorded. *)
Theorem main_outcome (E : externals) (a : args) (w w' : world)
    (r : res unit) :
  old_python E = false ->
  missing_cmdline (selected a) = false ->
  func E a (record_usage_report (selected_command (selected a)) w).2
    = (r, w') ->
  main E a w =
  match r with
  | Ok _ => (Raise (SystemExit 0), (submit_usage_report "success" w').2)
  | Raise e =>
      if is_Exception e
      then (Raise (SystemExit 0), (submit_usage_report (type_name e) w').2)
      else (Raise e, w')
  end.
Proof.
  intros Hp Hm Hrun. unfold main, main_with. rewrite Hp, Hm.
  rewrite (bind_ok _ _ w tt
             (record_usage_report (selected_command (selected a)) w).2)
    by reflexivity.
  unfold mbind, M_bind, try_except_else. rewrite Hrun.
  destruct r as [[]|e]; [reflexivity|].
  destruct (is_Exception e); reflexivity.
Qed.

Lemma main_outcome_witness :
  main interrupted_externals
    (sample_args (Trace None false ["echo"; "hi"]%string)) empty_world
  = (Raise KeyboardInterrupt,
     World ∅ [] [] [("command", "trace")]%string).
Proof.
  apply (main_outcome interrupted_externals
           (sample_args (Trace None false ["echo"; "hi"]%string))
           empty_world
           (World ∅ [] [] [("command", "trace")]%string)
           (Raise KeyboardInterrupt));
    reflexivity.
Defined.

(** X11: a trace or testrun command without a command line never reaches
    its subcommand: [main] leaves with the status 2 of the parser's error,
    nothing is recorded in the usage report and nothing is run. *)
Theorem main_without_command_line (E : externals) (a : args) (w : world)
    (arg0 : option string) (append : bool) :
  old_python E = false ->
  selected a = Trace arg0 append [] \/ selected a = Testrun arg0 [] ->
  main E a w = (Raise (SystemExit 2), w) /\
  exit_status (main E a w).1 = 2.
Proof.
  intros Hp Hsel.
  assert (Hm : missing_cmdline (selected a) = true)
    by (destruct Hsel as [-> | ->]; reflexivity).
  unfold main, main_with. rewrite Hp, Hm. split; reflexivity.
Qed.

Lemma main_without_command_line_witness :
  main (sample_externals 0) (sample_args (Testrun None [])) empty_world
  = (Raise (SystemExit 2), empty_world).
Proof.
  apply (main_without_command_line (sample_externals 0)
           (sample_args (Testrun None [])) empty_world None false).
  - reflexivity.
  - right. reflexivity.
Defined.

(** X12: called with an empty command line, the subcommands themselves
    raise [IndexError] at [args.cmdline[0]] before the tracer is started,
    also when arg0 is given: [trace] changes nothing, and [testrun] prints
    nothing and removes the temporary file it had created. *)
Theorem subcommands_need_a_command_line (E : externals) (a : args)
    (arg0 : option string) (append : bool) (w : world) :
  trace E a arg0 append [] w = (Raise IndexError, w) /\
  testrun E a arg0 [] w
  = (Raise IndexError,
     World (delete (tempname E w) (fs w)) (out w) (log w) (usage w)).
Proof.
  split; [reflexivity|].
  unfold testrun.
  rewrite (bind_ok (tempfile E) _ w (MkPath (tempname E w)) (tempfile E w).2)
    by reflexivity.
  unfold try_finally, testrun_body.
  rewrite (bind_raise (lift (Py.first_item [])) _ _ IndexError
             (tempfile E w).2) by reflexivity.
  unfold remove. simpl. rewrite lookup_insert_eq. simpl.
  rewrite delete_insert_eq. reflexivity.
Qed.

(** X13: when the tracer raises and the temporary database is still there,
    [testrun] removes it and raises the tracer's exception; the database is
    not dumped and no warning is printed, so nothing is written to standard
    output after what the tracer left. *)
Theorem testrun_after_tracer_failure (E : externals) (a : args)
    (arg0 : option string) (binary : string) (rest : list string)
    (w w1 : world) (e : exn) :
  execute E binary (build_argv arg0 (binary :: rest)) (tempname E w)
    (verbosity a)
    (logging (LogStartingTracer binary (build_argv arg0 (binary :: rest)))
       (tempfile E w).2).2
    = (Raise e, w1) ->
  is_Some (fs w1 !! tempname E w) ->
  testrun E a arg0 (binary :: rest) w
  = (Raise e,
     World (delete (tempname E w) (fs w1)) (out w1) (log w1) (usage w1)).
Proof.
  intros Hexec [db Hdb]. unfold testrun.
  rewrite (bind_ok (tempfile E) _ w (MkPath (tempname E w)) (tempfile E w).2)
    by reflexivity.
  unfold try_finally. rewrite testrun_body_launch.
  rewrite (bind_ok _ _ _ tt
             (logging (LogStartingTracer binary
                         (build_argv arg0 (binary :: rest)))
                (tempfile E w).2).2) by reflexivity.
  simpl path. rewrite (bind_raise _ _ _ _ _ Hexec).
  unfold remove. rewrite Hdb. reflexivity.
Qed.

Lemma testrun_after_tracer_failure_witness :
  testrun failing_externals (sample_args (Testrun None ["echo"; "hi"]%string))
    None ["echo"; "hi"]%string empty_world
  = (Raise LaunchError,
     World (delete "/tmp/reprozip_0.sqlite3"%string
              (<[ "/tmp/reprozip_0.sqlite3"%string := ∅ ]> ∅))
       [] [LogStartingTracer "echo" ["echo"; "hi"]%string] []).
Proof.
  rewrite (testrun_after_tracer_failure failing_externals
           (sample_args (Testrun None ["echo"; "hi"]%string)) None
           "echo" ["hi"]%string empty_world
           (World (<[ "/tmp/reprozip_0.sqlite3"%string := ∅ ]> ∅) []
              [LogStartingTracer "echo" ["echo"; "hi"]%string] [])
           LaunchError).
  - reflexivity.
  - reflexivity.
  - exists ∅. apply lookup_insert_eq.
Defined.

(** X14: when the tracer raises, [trace] raises the same exception and the
    configuration is not written: the world is the one the tracer left. *)
Theorem trace_after_tracer_failure (E : externals) (a : args)
    (arg0 : option string) (append : bool) (binary : string)
    (rest : list string) (w w1 : world) (e : exn) :
  tracer_trace E binary (build_argv arg0 (binary :: rest))
    (path (Path_of E (dir a))) append (verbosity a) w = (Raise e, w1) ->
  trace E a arg0 append (binary :: rest) w = (Raise e, w1).
Proof.
  intros Htrace. rewrite trace_launch. apply bind_raise, Htrace.
Qed.

Lemma trace_after_tracer_failure_witness :
  trace failing_externals (sample_args (Trace None false ["echo"]%string))
    None false ["echo"]%string empty_world
  = (Raise LaunchError, empty_world).
Proof.
  apply (trace_after_tracer_failure failing_externals
           (sample_args (Trace None false ["echo"]%string)) None false
           "echo" [] empty_world empty_world LaunchError).
  reflexivity.
Defined.

(** X15: [pack] settles on a name at once: if the normalisation of paths
    keeps proper names and normalising twice is normalising once, then
    whenever a target is chosen for an argument, that target is chosen
    again, unchanged, when it is itself given as the argument, and no second
    suffix is appended. *)
Theorem pack_target_idempotent (E : externals) (target : string) (p : Path) :
  normpath_keeps_name E ->
  (forall q, normpath E (normpath E q) = normpath E q) ->
  pack_target E target = Ok p ->
  pack_target E (path p) = Ok p.
Proof.
  intros Hnorm Hidem Hp.
  pose proof (pack_target_suffix E Hnorm target p Hp) as Hsuffix.
  assert (Hfix : Path_of E (path p) = p).
  { revert Hp. unfold pack_target.
    destruct (negb _).
    - destruct (add_rpz E (path (Path_of E target))) as [q|e];
        [|discriminate].
      intros Hp. injection Hp as <-. unfold Path_of. simpl path.
      rewrite Hidem. reflexivity.
    - intros Hp. injection Hp as <-. unfold Path_of. simpl path.
      rewrite Hidem. reflexivity. }
  unfold pack_target. rewrite Hfix, Hsuffix. reflexivity.
Qed.

Lemma pack_target_idempotent_witness :
  pack_target (packing_externals false) "experiment"
    = Ok (MkPath "experiment.rpz") /\
  pack_target (packing_externals false) "experiment.rpz"
    = Ok (MkPath "experiment.rpz").
Proof.
  split; [reflexivity|].
  apply (pack_target_idempotent (packing_externals false) "experiment"
           (MkPath "experiment.rpz")).
  - intros q _ _ _. reflexivity.
  - intros q. reflexivity.
  - reflexivity.
Defined.

(** X16: when the dump raises and the temporary database is still there,
    [testrun] removes it and raises the exception of the dump; the exit code
    the tracer returned is then not reported, even when it is not zero:
    nothing is printed after the lines of the interrupted dump. *)
Theorem testrun_after_dump_failure (E : externals) (a : args)
    (arg0 : option string) (binary : string) (rest : list string)
    (w w1 w2 : world) (c : Z) (e : exn) :
  execute E binary (build_argv arg0 (binary :: rest)) (tempname E w)
    (verbosity a)
    (logging (LogStartingTracer binary (build_argv arg0 (binary :: rest)))
       (tempfile E w).2).2
    = (Ok c, w1) ->
  print_db E (MkPath (tempname E w)) (print banner w1).2 = (Raise e, w2) ->
  is_Some (fs w2 !! tempname E w) ->
  testrun E a arg0 (binary :: rest) w
  = (Raise e,
     World (delete (tempname E w) (fs w2)) (out w2) (log w2) (usage w2)).
Proof.
  intros Hexec Hdump [db Hdb]. unfold testrun.
  rewrite (bind_ok (tempfile E) _ w (MkPath (tempname E w)) (tempfile E w).2)
    by reflexivity.
  unfold try_finally. rewrite testrun_body_launch.
  rewrite (bind_ok _ _ _ tt
             (logging (LogStartingTracer binary
                         (build_argv arg0 (binary :: rest)))
                (tempfile E w).2).2) by reflexivity.
  simpl path. rewrite (bind_ok _ _ _ _ _ Hexec).
  rewrite (bind_ok _ _ w1 tt (print banner w1).2) by reflexivity.
  rewrite (bind_raise _ _ _ _ _ Hdump).
  unfold remove. rewrite Hdb. reflexivity.
Qed.

Lemma testrun_after_dump_failure_witness :
  (testrun (externals_leaving empty_argv_store 1)
     (sample_args (Testrun None ["echo"; "hi"]%string))
     None ["echo"; "hi"]%string empty_world).1
  = Raise IndexError.
Proof.
  rewrite (testrun_after_dump_failure (externals_leaving empty_argv_store 1)
             (sample_args (Testrun None ["echo"; "hi"]%string)) None
             "echo" ["hi"]%string empty_world
             (execute (externals_leaving empty_argv_store 1) "echo"
                ["echo"; "hi"]%string "/tmp/reprozip_0.sqlite3" 1
                (logging (LogStartingTracer "echo" ["echo"; "hi"]%string)
                   (tempfile (externals_leaving empty_argv_store 1)
                      empty_world).2).2).2
             (print_db (externals_leaving empty_argv_store 1)
                (MkPath "/tmp/reprozip_0.sqlite3")
                (print banner
                   (execute (externals_leaving empty_argv_store 1) "echo"
                      ["echo"; "hi"]%string "/tmp/reprozip_0.sqlite3" 1
                      (logging
                         (LogStartingTracer "echo" ["echo"; "hi"]%string)
                         (tempfile (externals_leaving empty_argv_store 1)
                            empty_world).2).2).2).2).2
             1 IndexError).
  - reflexivity.
  - reflexivity.
  - vm_compute. reflexivity.
  - vm_compute. eexists. reflexivity.
Defined.

(** ** Executions the dumper can print *)

(** C10 (amended): the database dumper is only total for [executed_files]
    rows whose argv field is a text that is not empty.  For every row whose
    argv field is the empty string, splitting on NUL and discarding the
    trailing empty segment yields an empty sequence, and the subsequent
    access to element 0 of that sequence fails with [IndexError] rather than
    printing the row.  For every other argv text, a single NUL separator
    included, the sequence is not empty, element 0 exists, and a row whose
    other cells are well typed (integer id, timestamp and process, text
    name) is printed. *)
Theorem dumper_fails_exactly_on_empty_argv (E : externals) (r_name : value)
    (a : string) :
  (split_argv a = Ok [] <-> a = EmptyString) /\
  (cmdline_of E r_name (VText a) = Raise IndexError <-> a = EmptyString) /\
  (forall r_id r_timestamp r_process : Z,
     executed_line E [VInt r_id; r_name; VInt r_timestamp; VInt r_process;
                      VText EmptyString] = Raise IndexError) /\
  (forall r_id r_timestamp r_process r_argv : value,
     raised (executed_line E [r_id; r_name; r_timestamp; r_process; r_argv])
       = None ->
     exists b, r_argv = VText b /\ b <> EmptyString) /\
  (forall (r_id r_timestamp r_process : Z) (name : string),
     a <> EmptyString ->
     raised (executed_line E [VInt r_id; VText name; VInt r_timestamp;
                              VInt r_process; VText a]) = None).
Proof.
  split; [apply split_argv_empty_iff|].
  split; [apply cmdline_of_IndexError_iff|].
  split; [intros; reflexivity|].
  split.
  - intros r_id r_timestamp r_process r_argv Hok.
    apply executed_line_ok_iff in Hok. simpl in Hok.
    destruct r_argv as [| |b]; simpl in Hok;
      try (rewrite !andb_false_r in Hok; discriminate).
    exists b. split; [reflexivity|].
    apply andb_prop in Hok as [_ Hb]. apply negb_true_iff in Hb.
    intros ->. discriminate.
  - intros r_id r_timestamp r_process name Ha.
    apply executed_line_ok_iff. simpl.
    destruct (String.eqb_spec a ""); [contradiction|reflexivity].
Qed.

(** ** The dumper on the store of a session *)

Section SessionStore.

Variable E : externals.

Ltac not_operational :=
  let H := fresh "H" in
  intros H; first [discriminate H | injection H as <-; discriminate].

Lemma process_line_error row e :
  process_line row = Raise e -> e <> OperationalError.
Proof.
  destruct row as [|r_id [|r_parent [|r_timestamp [|r_exit [|? ?]]]]];
    try (simpl; not_operational).
  unfold process_line.
  destruct r_id, r_parent, r_timestamp, r_exit;
    repeat match goal with
           | |- context [f_exit (VInt ?x)] =>
               let s := fresh "s" in
               let Hs := fresh "Hs" in
               destruct (f_exit_int x) as [s Hs]; rewrite Hs
           end;
    simpl; not_operational.
Qed.

Lemma cmdline_of_error r_name r_argv e :
  cmdline_of E r_name r_argv = Raise e -> e <> OperationalError.
Proof.
  unfold cmdline_of. destruct r_argv as [| |a]; try not_operational.
  destruct (split_argv_total a) as [argv ->].
  destruct argv as [|a0 argv]; simpl; [not_operational|].
  destruct r_name; try not_operational.
  destruct (negb _); not_operational.
Qed.

Lemma executed_line_error row e :
  executed_line E row = Raise e -> e <> OperationalError.
Proof.
  destruct row as [|r_id [|r_name [|r_timestamp [|r_process [|r_argv [|? ?]]]]]];
    try (simpl; not_operational).
  unfold executed_line.
  destruct (cmdline_of E r_name r_argv) as [c|e'] eqn:Hc.
  - destruct r_id, r_timestamp, r_process; simpl; not_operational.
  - pose proof (cmdline_of_error _ _ _ Hc) as He'.
    destruct r_id, r_timestamp, r_process; simpl;
      intros H; first [discriminate H | injection H as <-; (exact He' || discriminate)].
Qed.

Lemma opened_line_error row e :
  opened_line row = Raise e -> e <> OperationalError.
Proof.
  destruct row as [|r_id [|r_name [|r_timestamp [|r_mode [|r_process [|? ?]]]]]];
    try (simpl; not_operational).
  destruct r_id, r_name, r_timestamp, r_mode, r_process; simpl;
    not_operational.
Qed.

(** Either every row is formatted or there is a first one that is not. *)
Lemma mapM_split {A} (line : A -> res string) (rows : list A) :
  (exists ls, mapM line rows = Ok ls) \/
  (exists pre bad post ls e,
     rows = pre ++ bad :: post /\ mapM line pre = Ok ls /\
     line bad = Raise e).
Proof.
  induction rows as [|row rows IH].
  - left. exists []. reflexivity.
  - destruct (line row) as [l|e] eqn:Hl.
    + destruct IH as [[ls Hls]|(pre & bad & post & ls & e & -> & Hpre & Hbad)].
      * left. exists (l :: ls). simpl. rewrite Hl. simpl. rewrite Hls.
        reflexivity.
      * right. exists (row :: pre), bad, post, (l :: ls), e.
        split; [reflexivity|]. split; [|exact Hbad].
        simpl. rewrite Hl. simpl. rewrite Hpre. reflexivity.
    + right. exists [], row, rows, [], e. auto.
Qed.

(** A block whose query succeeds prints its heading, and fails, if at all,
    with the exception of a row. *)
Lemma dump_table_result conn tbl cols title header names line rows w :
  select cols tbl conn = Ok rows ->
  (forall row e, line row = Raise e -> e <> OperationalError) ->
  raised (dump_table conn tbl cols title header names line w).1
    <> Some OperationalError /\
  exists l,
    (dump_table conn tbl cols title header names line w).2
    = printed w ([title; header; names; header] ++ l).
Proof.
  intros Hs Herr.
  destruct (mapM_split line rows)
    as [[ls Hls]|(pre & bad & post & ls & e & Heq & Hpre & Hbad)].
  - rewrite (dump_table_all _ _ _ _ _ _ _ rows ls w Hs Hls). simpl.
    split; [discriminate|eauto].
  - subst rows.
    rewrite (dump_table_stops _ _ _ _ _ _ _ pre bad post ls e w Hs Hpre Hbad).
    simpl. split; [|eauto].
    intros H. injection H as ->. exact (Herr bad _ Hbad eq_refl).
Qed.

Lemma store_of_processes s :
  select processes_columns "processes" (store_of s)
  = Ok (map process_row (s_processes s)).
Proof.
  apply (select_table (store_of s) "processes" processes_columns
           [0; 1; 2; 3]%nat
           (Table ["id"; "parent"; "timestamp"; "exitcode"]%string
              (map process_row (s_processes s))));
    try reflexivity; [|exact project_all_4].
  simpl rows. apply Forall_map, Forall_forall. intros; reflexivity.
Qed.

Lemma store_of_executed s :
  select executed_files_columns "executed_files" (store_of s)
  = Ok (map executed_row (s_executed s)).
Proof.
  apply (select_table (store_of s) "executed_files" executed_files_columns
           [0; 1; 2; 3; 4]%nat
           (Table ["id"; "name"; "timestamp"; "process"; "argv"]%string
              (map executed_row (s_executed s))));
    try reflexivity; [|exact project_all_5].
  simpl rows. apply Forall_map, Forall_forall. intros; reflexivity.
Qed.

Lemma store_of_opened s :
  select opened_files_columns "opened_files" (store_of s)
  = Ok (map opened_row (s_opened s)).
Proof.
  apply (select_table (store_of s) "opened_files" opened_files_columns
           [0; 1; 2; 3; 4]%nat
           (Table ["id"; "name"; "timestamp"; "mode"; "process"]%string
              (map opened_row (s_opened s))));
    try reflexivity; [|exact project_all_5].
  simpl rows. apply Forall_map, Forall_forall. intros; reflexivity.
Qed.

Lemma conforms_store_of s : conforms (store_of s).
Proof.
  unfold conforms, schema. repeat constructor.
  - eexists. split; [reflexivity|]. split; [reflexivity|].
    simpl rows. apply Forall_map, Forall_forall. intros; reflexivity.
  - eexists. split; [reflexivity|]. split; [reflexivity|].
    simpl rows. apply Forall_map, Forall_forall. intros; reflexivity.
  - eexists. split; [reflexivity|]. split; [reflexivity|].
    simpl rows. apply Forall_map, Forall_forall. intros; reflexivity.
Qed.

End SessionStore.

Section SessionDump.

Variable E : externals.

Lemma mapM_ok_length {A} (line : A -> res string) (rows : list A) ls :
  mapM line rows = Ok ls -> length ls = length rows.
Proof.
  revert ls. induction rows as [|row rows IH]; intros ls Hm.
  - injection Hm as <-. reflexivity.
  - simpl in Hm. destruct (line row) as [l|e]; [|discriminate].
    simpl in Hm. destruct (mapM line rows) as [ls'|e]; [|discriminate].
    injection Hm as <-. simpl. rewrite (IH ls' eq_refl). reflexivity.
Qed.

Lemma complete_rows_ok s :
  session_complete s ->
  Forall (fun row => process_row_ok row = true)
         (map process_row (s_processes s)) /\
  Forall (fun row => executed_row_ok row = true)
         (map executed_row (s_executed s)) /\
  Forall (fun row => opened_row_ok row = true)
         (map opened_row (s_opened s)).
Proof.
  intros [Hp He]. split; [|split].
  - apply Forall_map. eapply Forall_impl; [exact Hp|].
    intros p Hexit. simpl in Hexit. unfold process_row.
    destruct (Tracer.parent p), (Tracer.exitcode p);
      (reflexivity || (exfalso; apply Hexit; reflexivity)).
  - apply Forall_map. eapply Forall_impl; [exact He|].
    intros e Hargv. simpl in Hargv. unfold executed_row. simpl.
    destruct (String.eqb_spec (serialize_argv (e_trailing e) (e_argv e)) "");
      [contradiction|reflexivity].
  - apply Forall_map, Forall_forall. intros; reflexivity.
Qed.

(** On the store of a session [print_db] gets past its queries: it prints
    the heading of the processes at least, and whatever stops it is the
    exception of a row, not of a query. *)
Lemma print_db_on_session s database w :
  fs w !! path database = Some (store_of s) ->
  exists r rest,
    print_db E database w = (r, printed w (processes_block [] ++ rest)) /\
    raised r <> Some OperationalError.
Proof.
  intros Hfile. rewrite print_db_blocks by eauto.
  assert (Hdb : database_of w database = store_of s)
    by (unfold database_of; rewrite Hfile; reflexivity).
  rewrite Hdb.
  unfold mbind at 1, M_bind at 1.
  destruct (dump_table_result (store_of s) "processes" processes_columns
              (nl +:+ "Processes:") processes_header
              "|  id  | parent |  exit |     timestamp    |" process_line
              _ w (store_of_processes s) process_line_error)
    as [N1 [l1 W1]].
  destruct (dump_table (store_of s) "processes" _ _ _ _ _ w)
    as [[[]|e1] w1]; simpl in N1, W1; subst w1.
  2:{ exists (Raise e1), l1. split; [reflexivity|exact N1]. }
  unfold mbind at 1, M_bind at 1.
  destruct (dump_table_result (store_of s) "executed_files"
              executed_files_columns
              (nl +:+ "Executed files:") executed_header
              ("|   id   |     timestamp    | process | name and argv              "
               +:+ "           |") (executed_line E)
              _ (printed w ([nl +:+ "Processes:"; processes_header;
                  "|  id  | parent |  exit |     timestamp    |";
                  processes_header]%string ++ l1))
              (store_of_executed s) (executed_line_error E))
    as [N2 [l2 W2]].
  destruct (dump_table (store_of s) "executed_files" _ _ _ _ _ _)
    as [[[]|e2] w2]; simpl in N2, W2; subst w2.
  2:{ rewrite printed_app. eexists (Raise e2), (l1 ++ _).
      split; [reflexivity|exact N2]. }
  destruct (dump_table_result (store_of s) "opened_files"
              opened_files_columns
              (nl +:+ "Files:") opened_header
              ("|   id   |     timestamp    | process | mode | name                "
               +:+ "           |") opened_line
              _ (printed
                   (printed w ([nl +:+ "Processes:"; processes_header;
                      "|  id  | parent |  exit |     timestamp    |";
                      processes_header]%string ++ l1))
                   ([nl +:+ "Executed files:"; executed_header;
                     "|   id   |     timestamp    | process | name and argv              "
                     +:+ "           |"; executed_header]%string ++ l2))
              (store_of_opened s) opened_line_error)
    as [N3 [l3 W3]].
  destruct (dump_table (store_of s) "opened_files" _ _ _ _ _ _)
    as [r3 w3]; simpl in N3, W3; subst w3.
  rewrite !printed_app. eexists r3, (l1 ++ _).
  split; [reflexivity|exact N3].
Qed.

End SessionDump.

(** C5: the provenance store exposes exactly the schema
    processes(id, parent, timestamp, exitcode),
    executed_files(id, name, timestamp, process, argv),
    opened_files(id, name, timestamp, mode, process).  For every trace
    session the store it leaves conforms to this schema, and the reads of
    the database dumper, which select precisely these columns from these
    three tables, succeed: each query returns the rows of its table,
    [print_db] prints at least the heading of the processes and never fails
    on a query, and when every process of the session has ended and no argv
    field is empty it completes and shows every row of the three tables. *)
Theorem dumper_reads_every_session (E : externals) (s : session)
    (database : Path) (w : world) :
  fs w !! path database = Some (store_of s) ->
  conforms (store_of s) /\
  (select processes_columns "processes" (store_of s)
     = Ok (map process_row (s_processes s)) /\
   select executed_files_columns "executed_files" (store_of s)
     = Ok (map executed_row (s_executed s)) /\
   select opened_files_columns "opened_files" (store_of s)
     = Ok (map opened_row (s_opened s))) /\
  raised (print_db E database w).1 <> Some OperationalError /\
  (exists rest,
     out (print_db E database w).2 = out w ++ processes_block [] ++ rest) /\
  (session_complete s ->
   exists l1 l2 l3,
     print_db E database w
     = (Ok tt,
        printed w
          (processes_block l1 ++ executed_block l2 ++ opened_block l3)) /\
     length l1 = length (s_processes s) /\
     length l2 = length (s_executed s) /\
     length l3 = length (s_opened s)).
Proof.
  intros Hfile.
  split; [apply conforms_store_of|].
  split; [split; [apply store_of_processes|
                  split; [apply store_of_executed|apply store_of_opened]]|].
  destruct (print_db_on_session E s database w Hfile)
    as (r & rest & Hprint & Hno).
  split; [rewrite Hprint; exact Hno|].
  split; [rewrite Hprint; exists rest; reflexivity|].
  intros Hcomplete.
  destruct (complete_rows_ok s Hcomplete) as (R1 & R2 & R3).
  assert (Hdb : database_of w database = store_of s)
    by (unfold database_of; rewrite Hfile; reflexivity).
  destruct (print_db_all_rows E database w
              (Table ["id"; "parent"; "timestamp"; "exitcode"]%string
                 (map process_row (s_processes s)))
              (Table ["id"; "name"; "timestamp"; "process"; "argv"]%string
                 (map executed_row (s_executed s)))
              (Table ["id"; "name"; "timestamp"; "mode"; "process"]%string
                 (map opened_row (s_opened s))))
    as (l1 & l2 & l3 & M1 & M2 & M3 & Hp & _);
    try (rewrite Hdb; reflexivity); try reflexivity; try assumption.
  exists l1, l2, l3. split; [exact Hp|].
  apply mapM_ok_length in M1, M2, M3. simpl rows in M1, M2, M3.
  rewrite length_map in M1, M2, M3. auto.
Qed.

Lemma dumper_reads_every_session_witness :
  raised (print_db (sample_externals 0) sample_database
            (world_with (store_of sample_session))).1
    <> Some OperationalError /\
  exists rest,
    out (print_db (sample_externals 0) sample_database
           (world_with (store_of sample_session))).2
    = out (world_with (store_of sample_session)) ++
      processes_block [] ++ rest.
Proof.
  destruct (dumper_reads_every_session (sample_externals 0) sample_session
              sample_database (world_with (store_of sample_session)))
    as (_ & _ & Hno & Hout & _).
  - reflexivity.
  - split; [exact Hno|exact Hout].
Defined.
